(** * GeographicTilingScheme (Source/Core/GeographicTilingScheme.js)

    A shallow embedding of the tiling scheme of the EPSG:4490 fork of Cesium.
    The scheme works in one of two modes, fixed at construction:
    - standard mode: the root rectangle is cut in [numberOfLevelZeroTilesX << level]
      by [numberOfLevelZeroTilesY << level] tiles;
    - matrix mode ([_tileInfo] defined): tiles are laid out from
      [tileInfo.origin] with the resolution of the level found in [tileInfo.lods].

    Every JavaScript value the scheme computes with is a Number.  The
    operations on Numbers are an interface ([JSNumber]) with two instances:
    [Binary64], IEEE 754 doubles computed by the kernel's primitive floats,
    which is what a JavaScript engine evaluates, and [Exact], the same
    operations on rationals, which agrees with the doubles on the integers
    that [<<] and ToInt32 work with and is used for those only. *)

From Stdlib Require Import ZArith QArith Qround Floats List Bool Lia.
Import ListNotations.

Set Implicit Arguments.

(** ** 32-bit integers *)

(** ToInt32 of an integer: reduction modulo 2^32 into [-2^31, 2^31). *)
Definition wrap32 (z : Z) : Z := ((z + 2 ^ 31) mod 2 ^ 32 - 2 ^ 31)%Z.

(** ** JavaScript Numbers *)

Class JSNumber (num : Type) : Type := {
  (** an integer literal, or an int32 result read back as a Number *)
  ofZ : Z -> num;
  nadd : num -> num -> num;
  nsub : num -> num -> num;
  nmul : num -> num -> num;
  ndiv : num -> num -> num;
  (** [a < b], [a <= b] and [a === b] *)
  nltb : num -> num -> bool;
  nleb : num -> num -> bool;
  neqb : num -> num -> bool;
  (** the integer part, toward zero, of a finite Number; 0 for NaN and the
      infinities (the first steps of ToInt32) *)
  truncate : num -> Z;
  Math_floor : num -> num;
  Math_round : num -> num;
  Math_PI : num
}.

Declare Scope js_scope.
Delimit Scope js_scope with js.
Notation "a + b" := (nadd a b) : js_scope.
Notation "a - b" := (nsub a b) : js_scope.
Notation "a * b" := (nmul a b) : js_scope.
Notation "a / b" := (ndiv a b) : js_scope.
Notation "a <? b" := (nltb a b) : js_scope.
Notation "a <=? b" := (nleb a b) : js_scope.
Notation "a >=? b" := (nleb b a) : js_scope.
Notation "a === b" := (neqb a b) (at level 70, no associativity) : js_scope.

Section NumberOps.
Context {num : Type} {N : JSNumber num}.

(** ToInt32 of a Number. *)
Definition ToInt32 (a : num) : Z := wrap32 (truncate a).

(** [a << b]: both operands through ToInt32, the shift count taken modulo 32,
    the result wrapped to 32 bits. *)
Definition shl (a b : num) : num :=
  ofZ (wrap32 (Z.shiftl (ToInt32 a) (ToInt32 b mod 32))).

(** [a | 0]. *)
Definition bitor0 (a : num) : num := ofZ (ToInt32 a).

End NumberOps.

(** *** IEEE 754 doubles *)

Module Binary64.

Definition of_integer (z : Z) : float := SF2Prim (binary_normalize prec emax z 0 false).

Definition integer_part (f : float) : Z :=
  match Prim2SF f with
  | S754_finite s m e => let a := Z.shiftl (Z.pos m) e in if s then (- a)%Z else a
  | _ => 0%Z
  end.

(** Math.floor: a Number of magnitude 2^52 or more, a zero, NaN and the
    infinities are returned as they are. *)
Definition floor (f : float) : float :=
  match Prim2SF f with
  | S754_finite s m e =>
      if (0 <=? e)%Z then f
      else of_integer (Z.shiftl (if s then Z.neg m else Z.pos m) e)
  | _ => f
  end.

(** Math.round: the nearest integer, a tie going toward +infinity; a negative
    Number that rounds to zero gives -0. *)
Definition round (f : float) : float :=
  match Prim2SF f with
  | S754_finite s m e =>
      if (0 <=? e)%Z then f
      else
        let n := if s then Z.neg m else Z.pos m in
        let r := Z.shiftl (n + 2 ^ (- e - 1)) e in
        if (r =? 0)%Z && s then (- 0)%float else of_integer r
  | _ => f
  end.

#[global] Instance double : JSNumber float := {
  ofZ := of_integer;
  nadd := PrimFloat.add;
  nsub := PrimFloat.sub;
  nmul := PrimFloat.mul;
  ndiv := PrimFloat.div;
  nltb := PrimFloat.ltb;
  nleb := PrimFloat.leb;
  neqb := PrimFloat.eqb;
  truncate := integer_part;
  Math_floor := floor;
  Math_round := round;
  Math_PI := 0x1.921fb54442d18p+1%float
}.

End Binary64.

(** *** Exact rationals

    The same operations without rounding, infinity or NaN (a division by zero
    gives 0).  Sums, products and quotients of doubles are rounded and these
    are not, so this instance says nothing of them; it is used for the shift
    count of [<<] on integer levels. *)

Module Exact.

Definition quotient_part (q : Q) : Z := (Qnum q ÷ Z.pos (Qden q))%Z.

#[global] Instance rational : JSNumber Q := {
  ofZ := inject_Z;
  nadd := Qplus;
  nsub := Qminus;
  nmul := Qmult;
  ndiv := Qdiv;
  nltb := fun a b => negb (Qle_bool b a);
  nleb := Qle_bool;
  neqb := Qeq_bool;
  truncate := quotient_part;
  Math_floor := fun q => inject_Z (Qfloor q);
  Math_round := fun q => inject_Z (Qfloor (q + (1 # 2)));
  (** the value of the double Math.PI *)
  Math_PI := 884279719003555 # 281474976710656
}.

End Exact.

(** ** Collaborators of the scheme

    Math.js, Rectangle.js, Cartesian2.js, Cartographic.js, Ellipsoid.js,
    GeographicProjection.js, defaultValue.js and defined.js are imported by
    GeographicTilingScheme.js and are not part of the sources. *)

(** Modelled from the spec: Math.js is missing.  Section 6 names "degree-radian
    conversion primitives and a full-turn (2 pi) constant"; the conversions
    multiply by pi/180 and 180/pi. *)
Module CesiumMath.
Section Defs.
Context {num : Type} {N : JSNumber num}.
Local Open Scope js_scope.

Definition PI : num := Math_PI.
Definition TWO_PI : num := ofZ 2 * Math_PI.
Definition PI_OVER_TWO : num := Math_PI / ofZ 2.
Definition RADIANS_PER_DEGREE : num := Math_PI / ofZ 180.
Definition DEGREES_PER_RADIAN : num := ofZ 180 / Math_PI.
Definition toRadians (degrees : num) : num := degrees * RADIANS_PER_DEGREE.
Definition toDegrees (radians : num) : num := radians * DEGREES_PER_RADIAN.

End Defs.
End CesiumMath.

(** Modelled from the spec: Cartographic.js is missing.  A position is "a
    geodesic coordinate (longitude, latitude in radians)" (section 4.5). *)
Module Cartographic.
Record t (num : Type) : Type := new { longitude : num; latitude : num; height : num }.
End Cartographic.

(** Modelled from the spec: Cartesian2.js is missing.  Section 6 asks for "a
    2D point/pair abstraction for tile coordinates and projected-unit
    origins". *)
Module Cartesian2.
Record t (num : Type) : Type := new { x : num; y : num }.
End Cartesian2.

(** Modelled from the spec: Rectangle.js is missing.  Section 6 asks of a
    rectangle "construction from four bounds, a containment predicate, and
    width/height accessors"; section 3 gives the full sphere as the default
    extent.  A rectangle whose east is less than its west crosses the
    antimeridian (section 4.5) and is a full turn wider than [east - west].
    The containment predicate is left to [Collaborators] below. *)
Module Rectangle.
Record t (num : Type) : Type := new { west : num; south : num; east : num; north : num }.

Section Defs.
Context {num : Type} {N : JSNumber num}.
Local Open Scope js_scope.

Definition fromDegrees (w s e n : num) : t num :=
  new (CesiumMath.toRadians w) (CesiumMath.toRadians s)
      (CesiumMath.toRadians e) (CesiumMath.toRadians n).

Definition MAX_VALUE : t num :=
  new (ofZ 0 - CesiumMath.PI) (ofZ 0 - CesiumMath.PI_OVER_TWO)
      CesiumMath.PI CesiumMath.PI_OVER_TWO.

Definition width (r : t num) : num :=
  let east := if east r <? west r then east r + CesiumMath.TWO_PI else east r in
  east - west r.

Definition height (r : t num) : num := north r - south r.

(** The centre of a rectangle (the [centerOf] of section 8). *)
Definition center (r : t num) : Cartographic.t num :=
  let east := if east r <? west r then east r + CesiumMath.TWO_PI else east r in
  Cartographic.new ((west r + east) * (ofZ 1 / ofZ 2))
                   ((south r + north r) * (ofZ 1 / ofZ 2)) (ofZ 0).

(** A position lies within a rectangle, bounds included; a rectangle that
    crosses the antimeridian holds the longitudes from its west to pi and
    from -pi to its east. *)
Definition contains (r : t num) (p : Cartographic.t num) : bool :=
  let wraps := east r <? west r in
  let east := if wraps then east r + CesiumMath.TWO_PI else east r in
  let longitude :=
    if wraps && (Cartographic.longitude p <? ofZ 0)
    then Cartographic.longitude p + CesiumMath.TWO_PI
    else Cartographic.longitude p in
  (west r <=? longitude) && (longitude <=? east) &&
  (south r <=? Cartographic.latitude p) && (Cartographic.latitude p <=? north r).

End Defs.
End Rectangle.

(** What the scheme takes from its collaborators without looking inside:
    the ellipsoids it defaults to and the containment test of Rectangle. *)
Class Collaborators (num : Type) : Type := {
  Ellipsoid : Type;
  Ellipsoid_WGS84 : Ellipsoid;
  Ellipsoid_CGCS2000 : Ellipsoid;
  Rectangle_contains : Rectangle.t num -> Cartographic.t num -> bool
}.

(** Modelled from the spec: GeographicProjection.js is missing.  Section 6
    asks for "a map-projection abstraction constructible from an ellipsoid";
    [new] is [new GeographicProjection(ellipsoid)]. *)
Module GeographicProjection.
Record t (E : Type) : Type := new { ellipsoid : E }.
End GeographicProjection.

(** Modelled from the spec: defaultValue.js and defined.js are missing.
    [defaultValue(a, b)] is [a] unless it is undefined ("explicitly supplied
    ... overrides the corresponding default", section 4.1). *)
Definition defaultValue {A : Type} (a : option A) (b : A) : A :=
  match a with Some v => v | None => b end.

(** [defined(a)]. *)
Definition defined {A : Type} (a : option A) : bool :=
  match a with Some _ => true | None => false end.

(** ** The tile matrix descriptor ([options.tileInfo]) *)

(** An entry of [tileInfo.lods]. *)
Module Lod.
Record t (num : Type) : Type := new { level : num; resolution : num }.
End Lod.

Module SpatialReference.
Record t (num : Type) : Type := new { wkid : option num }.
End SpatialReference.

Module TileInfo.
Record t (num : Type) : Type := new {
  spatialReference : option (SpatialReference.t num);
  lods : list (Lod.t num);
  rows : num;
  cols : num;
  origin : Cartesian2.t num
}.
End TileInfo.

(** ** Objects, references and completions

    [tileXYToRectangle] and [positionToTileXY] take an optional [result]
    object that they fill and return.  Rectangles and coordinate pairs
    therefore live in a store and are passed by reference; [new] appends to
    the store.  A call completes normally with a value and a store, or
    throws. *)

Definition ref : Type := nat.

Inductive Error : Type :=
| TypeError.  (* a property read from undefined *)

Module Heap.
Record t (num : Type) : Type := make {
  rectangles : list (Rectangle.t num);
  pairs : list (Cartesian2.t num)
}.
End Heap.

Inductive Completion (num A : Type) : Type :=
| Normal (v : A) (h : Heap.t num)
| Throw (e : Error).
Arguments Throw {num A} e.

(** Replace the object at [l]. *)
Fixpoint assign {A : Type} (l : ref) (v : A) (s : list A) : list A :=
  match s, l with
  | [], _ => []
  | _ :: s', O => v :: s'
  | a :: s', S l' => a :: assign l' v s'
  end.

Definition M (num A : Type) : Type := Heap.t num -> Completion num A.

Section Monad.
Context {num : Type}.

Definition ret {A : Type} (v : A) : M num A := fun h => Normal v h.

Definition throw {A : Type} (e : Error) : M num A := fun _ => Throw e.

Definition bind {A B : Type} (c : M num A) (k : A -> M num B) : M num B :=
  fun h => match c h with
           | Normal v h' => k v h'
           | Throw e => Throw e
           end.

(** [new Rectangle(west, south, east, north)]. *)
Definition newRectangle (r : Rectangle.t num) : M num ref :=
  fun h => Normal (length (Heap.rectangles h))
                  (Heap.make (Heap.rectangles h ++ [r]) (Heap.pairs h)).

(** [new Cartesian2(x, y)]. *)
Definition newCartesian2 (c : Cartesian2.t num) : M num ref :=
  fun h => Normal (length (Heap.pairs h))
                  (Heap.make (Heap.rectangles h) (Heap.pairs h ++ [c])).

(** Assignment to the four bounds of the rectangle [l]. *)
Definition setRectangle (l : ref) (r : Rectangle.t num) : M num unit :=
  fun h => Normal tt (Heap.make (assign l r (Heap.rectangles h)) (Heap.pairs h)).

(** Assignment to [x] and [y] of the pair [l]. *)
Definition setCartesian2 (l : ref) (c : Cartesian2.t num) : M num unit :=
  fun h => Normal tt (Heap.make (Heap.rectangles h) (assign l c (Heap.pairs h))).

(** A bound read from the rectangle [l].  A reference that denotes no
    rectangle of the store stands for [undefined]: reading a property of it
    throws. *)
Definition readRectangle (l : ref) : M num (Rectangle.t num) :=
  fun h => match nth_error (Heap.rectangles h) l with
           | Some r => Normal r h
           | None => Throw TypeError
           end.

(** An assignment to one bound of the rectangle [l], computed from the
    rectangle as it is: [f] gives the rectangle after the assignment. *)
Definition modifyRectangle (l : ref) (f : Rectangle.t num -> Rectangle.t num)
  : M num unit :=
  fun h => match nth_error (Heap.rectangles h) l with
           | Some r =>
               Normal tt (Heap.make (assign l (f r) (Heap.rectangles h)) (Heap.pairs h))
           | None => Throw TypeError
           end.

End Monad.

Notation "x <- c ;; k" := (bind c (fun x => k))
  (at level 61, c at next level, right associativity).
Notation "c ;;; k" := (bind c (fun _ => k))
  (at level 61, right associativity).

(** ** The scheme *)

Module Options.
Record t (num E : Type) : Type := new {
  tileInfo : option (TileInfo.t num);
  ellipsoid : option E;
  rectangle : option (Rectangle.t num);
  numberOfLevelZeroTilesX : option num;
  numberOfLevelZeroTilesY : option num
}.
(** [defaultValue.EMPTY_OBJECT] *)
Definition EMPTY_OBJECT {num E : Type} : t num E := new None None None None None.
End Options.

Module GeographicTilingScheme.

Record t (num E : Type) : Type := make {
  _tileInfo : option (TileInfo.t num);
  _ellipsoid : E;
  _rectangle : Rectangle.t num;
  _numberOfLevelZeroTilesX : num;
  _numberOfLevelZeroTilesY : num;
  _projection : GeographicProjection.t E
}.

Section Methods.
Context {num : Type} {N : JSNumber num} {C : Collaborators num}.
Local Open Scope js_scope.

(** The condition of the constructor: [options.tileInfo], its
    [spatialReference] and the [wkid] of that are defined, and the wkid is 4490. *)
Definition isCGCS2000 (options : Options.t num Ellipsoid) : bool :=
  match Options.tileInfo options with
  | Some tileInfo =>
      match TileInfo.spatialReference tileInfo with
      | Some spatialReference =>
          match SpatialReference.wkid spatialReference with
          | Some wkid => wkid === ofZ 4490
          | None => false
          end
      | None => false
      end
  | None => false
  end.

(** [new GeographicTilingScheme(options)] *)
Definition new (options : option (Options.t num Ellipsoid)) : t num Ellipsoid :=
  let options := defaultValue options Options.EMPTY_OBJECT in
  if isCGCS2000 options then
    let ellipsoid := defaultValue (Options.ellipsoid options) Ellipsoid_CGCS2000 in
    make (Options.tileInfo options)
         ellipsoid
         (defaultValue (Options.rectangle options)
            (Rectangle.fromDegrees (ofZ (-180)) (ofZ (-90)) (ofZ 180) (ofZ 90)))
         (defaultValue (Options.numberOfLevelZeroTilesX options) (ofZ 4))
         (defaultValue (Options.numberOfLevelZeroTilesY options) (ofZ 2))
         (GeographicProjection.new ellipsoid)
  else
    let ellipsoid := defaultValue (Options.ellipsoid options) Ellipsoid_WGS84 in
    make None
         ellipsoid
         (defaultValue (Options.rectangle options) Rectangle.MAX_VALUE)
         (defaultValue (Options.numberOfLevelZeroTilesX options) (ofZ 2))
         (defaultValue (Options.numberOfLevelZeroTilesY options) (ofZ 1))
         (GeographicProjection.new ellipsoid).

(** The getters [ellipsoid], [rectangle] and [projection]. *)
Definition ellipsoid (this : t num Ellipsoid) : Ellipsoid := _ellipsoid this.
Definition rectangle (this : t num Ellipsoid) : Rectangle.t num := _rectangle this.
Definition projection (this : t num Ellipsoid) : GeographicProjection.t Ellipsoid :=
  _projection this.

(** [this._tileInfo.lods.filter(item => item.level === level)] *)
Definition currentMatrix (tileInfo : TileInfo.t num) (level : num) : list (Lod.t num) :=
  filter (fun item => Lod.level item === level) (TileInfo.lods tileInfo).

(** [currentMatrix[0].resolution]: a TypeError when the filter kept nothing. *)
Definition currentResolution (tileInfo : TileInfo.t num) (level : num) : M num num :=
  match currentMatrix tileInfo level with
  | item :: _ => ret (Lod.resolution item)
  | [] => throw TypeError
  end.

Definition getNumberOfXTilesAtLevel (this : t num Ellipsoid) (level : num) : M num num :=
  match _tileInfo this with
  | None => ret (shl (_numberOfLevelZeroTilesX this) level)
  | Some tileInfo =>
      currentResolution <- currentResolution tileInfo level ;;
      ret (Math_round
             (CesiumMath.toDegrees CesiumMath.TWO_PI /
              (TileInfo.rows tileInfo * currentResolution)))
  end.

Definition getNumberOfYTilesAtLevel (this : t num Ellipsoid) (level : num) : M num num :=
  match _tileInfo this with
  | None => ret (shl (_numberOfLevelZeroTilesY this) level)
  | Some tileInfo =>
      currentResolution <- currentResolution tileInfo level ;;
      ret (Math_round
             (CesiumMath.toDegrees (CesiumMath.TWO_PI / ofZ 2) /
              (TileInfo.cols tileInfo * currentResolution)))
  end.

Definition tileXYToRectangle (this : t num Ellipsoid) (x y level : num) (result : option ref)
  : M num ref :=
  let rectangle := _rectangle this in
  bounds <-
    match _tileInfo this with
    | Some tileInfo =>
        currentResolution <- currentResolution tileInfo level ;;
        let origin := TileInfo.origin tileInfo in
        let north :=
          Cartesian2.y origin - y * (TileInfo.cols tileInfo * currentResolution) in
        let west :=
          Cartesian2.x origin + x * (TileInfo.rows tileInfo * currentResolution) in
        let south :=
          Cartesian2.y origin -
          (y + ofZ 1) * (TileInfo.cols tileInfo * currentResolution) in
        let east :=
          Cartesian2.x origin +
          (x + ofZ 1) * (TileInfo.rows tileInfo * currentResolution) in
        ret (Rectangle.new (CesiumMath.toRadians west) (CesiumMath.toRadians south)
                           (CesiumMath.toRadians east) (CesiumMath.toRadians north))
    | None =>
        xTiles <- getNumberOfXTilesAtLevel this level ;;
        yTiles <- getNumberOfYTilesAtLevel this level ;;
        let xTileWidth := Rectangle.width rectangle / xTiles in
        let west := x * xTileWidth + Rectangle.west rectangle in
        let east := (x + ofZ 1) * xTileWidth + Rectangle.west rectangle in
        let yTileHeight := Rectangle.height rectangle / yTiles in
        let north := Rectangle.north rectangle - y * yTileHeight in
        let south := Rectangle.north rectangle - (y + ofZ 1) * yTileHeight in
        ret (Rectangle.new west south east north)
    end ;;
  result <-
    match result with
    | None => newRectangle bounds
    | Some result => ret result
    end ;;
  setRectangle result bounds ;;;
  ret result.

(** The result is [None] for [undefined]. *)
Definition positionToTileXY (this : t num Ellipsoid) (position : Cartographic.t num)
  (level : num) (result : option ref) : M num (option ref) :=
  let rectangle := _rectangle this in
  if negb (Rectangle_contains rectangle position) then
    (* outside the bounds of the tiling scheme *)
    ret None
  else
    match _tileInfo this with
    | Some tileInfo =>
        currentResolution <- currentResolution tileInfo level ;;
        let origin := TileInfo.origin tileInfo in
        let degLon := CesiumMath.toDegrees (Cartographic.longitude position) in
        let degLat := CesiumMath.toDegrees (Cartographic.latitude position) in
        let x_4490 :=
          Math_floor ((degLon - Cartesian2.x origin) /
                      (TileInfo.rows tileInfo * currentResolution)) in
        let y_4490 :=
          Math_floor ((Cartesian2.y origin - degLat) /
                      (TileInfo.cols tileInfo * currentResolution)) in
        fresh <- newCartesian2 (Cartesian2.new x_4490 y_4490) ;;
        ret (Some fresh)
    | None =>
        xTiles <- getNumberOfXTilesAtLevel this level ;;
        yTiles <- getNumberOfYTilesAtLevel this level ;;
        let xTileWidth := Rectangle.width rectangle / xTiles in
        let yTileHeight := Rectangle.height rectangle / yTiles in
        let longitude :=
          if Rectangle.east rectangle <? Rectangle.west rectangle
          then Cartographic.longitude position + CesiumMath.TWO_PI
          else Cartographic.longitude position in
        let xTileCoordinate :=
          bitor0 ((longitude - Rectangle.west rectangle) / xTileWidth) in
        let xTileCoordinate :=
          if xTileCoordinate >=? xTiles then xTiles - ofZ 1 else xTileCoordinate in
        let yTileCoordinate :=
          bitor0 ((Rectangle.north rectangle - Cartographic.latitude position) /
                  yTileHeight) in
        let yTileCoordinate :=
          if yTileCoordinate >=? yTiles then yTiles - ofZ 1 else yTileCoordinate in
        match result with
        | None =>
            fresh <- newCartesian2 (Cartesian2.new xTileCoordinate yTileCoordinate) ;;
            ret (Some fresh)
        | Some result =>
            setCartesian2 result (Cartesian2.new xTileCoordinate yTileCoordinate) ;;;
            ret (Some result)
        end
    end.

(** [rectangle] is a defined rectangle: the debug build rejects anything
    else in [Check.defined].  The four bounds are read before any is
    written. *)
Definition rectangleToNativeRectangle (this : t num Ellipsoid) (rectangle : ref)
  (result : option ref) : M num ref :=
  r <- readRectangle rectangle ;;
  let west := CesiumMath.toDegrees (Rectangle.west r) in
  let south := CesiumMath.toDegrees (Rectangle.south r) in
  let east := CesiumMath.toDegrees (Rectangle.east r) in
  let north := CesiumMath.toDegrees (Rectangle.north r) in
  match result with
  | None => newRectangle (Rectangle.new west south east north)
  | Some result =>
      modifyRectangle result
        (fun o => Rectangle.new west (Rectangle.south o) (Rectangle.east o)
                                (Rectangle.north o)) ;;;
      modifyRectangle result
        (fun o => Rectangle.new (Rectangle.west o) south (Rectangle.east o)
                                (Rectangle.north o)) ;;;
      modifyRectangle result
        (fun o => Rectangle.new (Rectangle.west o) (Rectangle.south o) east
                                (Rectangle.north o)) ;;;
      modifyRectangle result
        (fun o => Rectangle.new (Rectangle.west o) (Rectangle.south o)
                                (Rectangle.east o) north) ;;;
      ret result
  end.

(** Each bound of the rectangle that tileXYToRectangle returns is replaced
    by its value in degrees, one after the other. *)
Definition tileXYToNativeRectangle (this : t num Ellipsoid) (x y level : num)
  (result : option ref) : M num ref :=
  rectangleRadians <- tileXYToRectangle this x y level result ;;
  modifyRectangle rectangleRadians
    (fun o => Rectangle.new (CesiumMath.toDegrees (Rectangle.west o))
                (Rectangle.south o) (Rectangle.east o) (Rectangle.north o)) ;;;
  modifyRectangle rectangleRadians
    (fun o => Rectangle.new (Rectangle.west o)
                (CesiumMath.toDegrees (Rectangle.south o))
                (Rectangle.east o) (Rectangle.north o)) ;;;
  modifyRectangle rectangleRadians
    (fun o => Rectangle.new (Rectangle.west o) (Rectangle.south o)
                (CesiumMath.toDegrees (Rectangle.east o)) (Rectangle.north o)) ;;;
  modifyRectangle rectangleRadians
    (fun o => Rectangle.new (Rectangle.west o) (Rectangle.south o)
                (Rectangle.east o) (CesiumMath.toDegrees (Rectangle.north o))) ;;;
  ret rectangleRadians.

End Methods.
End GeographicTilingScheme.

(** ** The collaborators as Cesium provides them

    Modelled from the spec: Ellipsoid.js and Rectangle.js are missing.  The
    ellipsoids are the two presets of section 6, and the containment test is
    [Rectangle.contains] above. *)
Inductive EllipsoidPreset : Type :=
| WGS84
| CGCS2000.

#[global] Instance cesium {num : Type} {N : JSNumber num} : Collaborators num := {
  Ellipsoid := EllipsoidPreset;
  Ellipsoid_WGS84 := WGS84;
  Ellipsoid_CGCS2000 := CGCS2000;
  Rectangle_contains := Rectangle.contains
}.

(** * Properties *)

Import GeographicTilingScheme.

Unset Implicit Arguments.

(** ** Statements used by the properties *)

(** A field of the scheme is the option when it was supplied and the
    default otherwise. *)
Definition resolved {A : Type} (supplied : option A) (default value : A) : Prop :=
  match supplied with
  | Some v => value = v
  | None => value = default
  end.

(** The object a reference denotes. *)
Definition pairAt {num : Type} (h : Heap.t num) (l : ref) : option (Cartesian2.t num) :=
  nth_error (Heap.pairs h) l.

Definition rectangleAt {num : Type} (h : Heap.t num) (l : ref) : option (Rectangle.t num) :=
  nth_error (Heap.rectangles h) l.

(** The value of a call that completes normally. *)
Definition completedValue {num A : Type} (c : Completion num A) : option A :=
  match c with
  | Normal v _ => Some v
  | Throw _ => None
  end.

(** The rectangle that tileXYToRectangle returns. *)
Definition returnedRectangle {num : Type} (c : Completion num ref)
  : option (Rectangle.t num) :=
  match c with
  | Normal l h => rectangleAt h l
  | Throw _ => None
  end.

(** The pair that positionToTileXY returns; [None] when it returns
    [undefined] or throws. *)
Definition returnedPair {num : Type} (c : Completion num (option ref))
  : option (Cartesian2.t num) :=
  match c with
  | Normal (Some l) h => pairAt h l
  | Normal None _ => None
  | Throw _ => None
  end.

(** Section 4.5 for one axis: the offset from the edge of the root rectangle,
    divided by the size of a tile and truncated, then clamped to the last
    tile when it reaches the number of tiles. *)
Definition tileIndex {num : Type} {N : JSNumber num} (offset tileSize tiles : num) : num :=
  let index := bitor0 (ndiv offset tileSize) in
  if nleb tiles index then nsub tiles (ofZ 1) else index.

(** The levels 0 .. n. *)
Definition levelsUpTo (n : nat) : list Z := map Z.of_nat (seq 0 (S n)).

(** Round half away from zero, from Math.round on the magnitude. *)
Definition roundHalfAwayFromZero {num : Type} {N : JSNumber num} (a : num) : num :=
  if nltb a (ofZ 0) then nsub (ofZ 0) (Math_round (nsub (ofZ 0) a)) else Math_round a.

(** C1 as stated: the tile counts of a level of resolution [r] would be
    round(180 / (cols * r)) and round(90 / (rows * r)). *)
Definition claimedTilesX {num : Type} {N : JSNumber num}
  (tileInfo : TileInfo.t num) (r : num) : num :=
  roundHalfAwayFromZero (ndiv (ofZ 180) (nmul (TileInfo.cols tileInfo) r)).

Definition claimedTilesY {num : Type} {N : JSNumber num}
  (tileInfo : TileInfo.t num) (r : num) : num :=
  roundHalfAwayFromZero (ndiv (ofZ 90) (nmul (TileInfo.rows tileInfo) r)).

(** The round trip of section 8: the tile of the centre of the rectangle of
    a tile. *)
Definition roundTrip {num : Type} {N : JSNumber num} {C : Collaborators num}
  (this : t num Ellipsoid) (x y level : num) (h : Heap.t num)
  : option (Cartesian2.t num) :=
  match tileXYToRectangle this x y level None h with
  | Normal l h' =>
      match rectangleAt h' l with
      | Some r => returnedPair (positionToTileXY this (Rectangle.center r) level None h')
      | None => None
      end
  | Throw _ => None
  end.

(** A pair lies within the tile counts of its level. *)
Definition tileInRange {num : Type} {N : JSNumber num}
  (pair : option (Cartesian2.t num)) (xTiles yTiles : option num) : Prop :=
  match pair, xTiles, yTiles with
  | Some c, Some nx, Some ny =>
      nleb (ofZ 0) (Cartesian2.x c) = true /\
      nleb (Cartesian2.x c) (nsub nx (ofZ 1)) = true /\
      nleb (ofZ 0) (Cartesian2.y c) = true /\
      nleb (Cartesian2.y c) (nsub ny (ofZ 1)) = true
  | _, _, _ => False
  end.

(** The integers 0 .. n - 1. *)
Definition range (n : nat) : list Z := map Z.of_nat (seq 0 n).

(** The tiles of the levels 0 .. n of a scheme of 2 by 1 level-zero tiles. *)
Definition tilesUpTo (n : nat) : list (Z * Z * Z) :=
  flat_map (fun level =>
    flat_map (fun x => map (fun y => (Z.of_nat level, x, y)) (range (2 ^ level)))
             (range (2 * 2 ^ level)))
    (seq 0 (S n)).

(** Both coordinates of a pair are [===] to the given integers. *)
Definition pairIs {num : Type} {N : JSNumber num}
  (pair : option (Cartesian2.t num)) (x y : Z) : bool :=
  match pair with
  | Some c => neqb (Cartesian2.x c) (ofZ x) && neqb (Cartesian2.y c) (ofZ y)
  | None => false
  end.

(** The bounds of a tile: the rectangle that tileXYToRectangle returns when
    it is called without [result] on the empty store; [None] when it throws. *)
Definition tileBounds {num : Type} {N : JSNumber num} {C : Collaborators num}
  (this : t num Ellipsoid) (x y level : num) : option (Rectangle.t num) :=
  returnedRectangle (tileXYToRectangle this x y level None (Heap.make [] [])).

(** A rectangle with each bound in degrees. *)
Definition inDegrees {num : Type} {N : JSNumber num} (r : Rectangle.t num)
  : Rectangle.t num :=
  Rectangle.new (CesiumMath.toDegrees (Rectangle.west r))
                (CesiumMath.toDegrees (Rectangle.south r))
                (CesiumMath.toDegrees (Rectangle.east r))
                (CesiumMath.toDegrees (Rectangle.north r)).

(** The x coordinate of a pair. *)
Definition column {num : Type} (pair : option (Cartesian2.t num)) : option num :=
  option_map (@Cartesian2.x num) pair.

(** A number is [===] to the value of a call. *)
Definition valueIs {num : Type} {N : JSNumber num} (value : option num) (n : Z) : bool :=
  match value with
  | Some v => neqb v (ofZ n)
  | None => false
  end.

(** The first and the last tile of a level reach the four edges of the root
    rectangle, bound for bound under [===]. *)
Definition reachesEdges {num : Type} {N : JSNumber num}
  (root : Rectangle.t num) (first last : option (Rectangle.t num)) : bool :=
  match first, last with
  | Some f, Some l =>
      neqb (Rectangle.west f) (Rectangle.west root) &&
      neqb (Rectangle.north f) (Rectangle.north root) &&
      neqb (Rectangle.east l) (Rectangle.east root) &&
      neqb (Rectangle.south l) (Rectangle.south root)
  | _, _ => false
  end.

(** ** Schemes, stores and positions of the examples *)

(** Schemes over doubles, with Cesium's collaborators. *)
Definition Scheme64 : Type := t float (@Ellipsoid float cesium).


(** The store with no object in it. *)
Definition emptyHeap : Heap.t float := Heap.make [] [].


(** The tile matrix of the example of section 8: origin (-180, 90), tiles of
    256 by 256 cells, one level, 0, of resolution 0.703125. *)
Definition exampleTileInfo : TileInfo.t float :=
  TileInfo.new (Some (SpatialReference.new (Some 4490%float)))
               [Lod.new 0%float 0.703125%float]
               256%float 256%float
               (Cartesian2.new (-180)%float 90%float).

Definition exampleMatrixScheme : Scheme64 :=
  new (Some (Options.new (Some exampleTileInfo) None None None None)).

(** C2 as stated: the rectangle of tile (0, 0) at level 0 would have its south
    at 0 degrees. *)
Definition claimedExampleRectangle : Rectangle.t float :=
  Rectangle.fromDegrees (-180)%float 0%float 0%float 90%float.

(** What the code computes: the south is at -90 degrees. *)
Definition exampleRectangle : Rectangle.t float :=
  Rectangle.fromDegrees (-180)%float (-90)%float 0%float 90%float.

(** The scheme of [new GeographicTilingScheme()]. *)
Definition defaultScheme : Scheme64 := new None.


(** A scheme of 1024 tiles in X at level zero. *)
Definition scheme1024 : Scheme64 :=
  new (Some (Options.new None None None (Some 1024%float) None)).

(** A store with one pair, of coordinates (7, 7). *)
Definition heapWithPair : Heap.t float := Heap.make [] [Cartesian2.new 7%float 7%float].

(** The position of longitude 0 and latitude 0. *)
Definition nullIsland : Cartographic.t float := Cartographic.new 0%float 0%float 0%float.

(** The rectangle from 170 degrees east to 170 degrees west. *)
Definition wrappedRectangle {num : Type} {N : JSNumber num} (south north : num)
  : Rectangle.t num :=
  Rectangle.new (CesiumMath.toRadians (ofZ 170)) south
                (CesiumMath.toRadians (ofZ (-170))) north.

Definition wrappedScheme {num : Type} {N : JSNumber num} (south north : num)
  : t num (@Ellipsoid num cesium) :=
  new (Some (Options.new None None (Some (wrappedRectangle south north)) None None)).

(** The same between 10 degrees south and 10 degrees north. *)
Definition wrappedExample {num : Type} {N : JSNumber num}
  : t num (@Ellipsoid num cesium) :=
  wrappedScheme (CesiumMath.toRadians (ofZ (-10))) (CesiumMath.toRadians (ofZ 10)).

(** The position on the equator at a longitude given in degrees. *)
Definition onEquator {num : Type} {N : JSNumber num} (degrees : Z)
  : Cartographic.t num :=
  Cartographic.new (CesiumMath.toRadians (ofZ degrees)) (ofZ 0) (ofZ 0).

(** A store with one rectangle, the maximum rectangle, and one pair. *)
Definition heapWithBoth : Heap.t float :=
  Heap.make [Rectangle.MAX_VALUE] [Cartesian2.new 7%float 7%float].

(** The matrix scheme of the example with WGS84, 7 by 5 level-zero tiles and
    the rectangle from 170 to -170 degrees supplied. *)
Definition exampleMatrixSchemeOtherGrid : Scheme64 :=
  new (Some (Options.new (Some exampleTileInfo) (Some Ellipsoid_WGS84)
               (Some (wrappedRectangle (CesiumMath.toRadians (-10)%float)
                                       (CesiumMath.toRadians 10%float)))
               (Some 7%float) (Some 5%float))).

(** The tile matrix of the example with two more entries for level 0, of
    other resolutions, behind the first. *)
Definition repeatedLevelTileInfo : TileInfo.t float :=
  TileInfo.new (Some (SpatialReference.new (Some 4490%float)))
               [Lod.new 1%float 0.3515625%float; Lod.new 0%float 0.703125%float;
                Lod.new 0%float 1.40625%float; Lod.new 0%float 0.3515625%float]
               256%float 256%float
               (Cartesian2.new (-180)%float 90%float).

Definition repeatedLevelScheme : Scheme64 :=
  new (Some (Options.new (Some repeatedLevelTileInfo) None None None None)).

(** The rectangle of tile (2, 1) of level 3 of the default scheme. *)
Definition exampleTile : Rectangle.t float :=
  Eval vm_compute in
    match tileBounds defaultScheme 2%float 1%float 3%float with
    | Some r => r
    | None => Rectangle.MAX_VALUE
    end.

(** The tile matrix of the example carried on to the levels 0 .. 6, the
    resolution halved from each level to the next. *)
Definition pyramidTileInfo : TileInfo.t float :=
  TileInfo.new (Some (SpatialReference.new (Some 4490%float)))
               (map (fun l => Lod.new (ofZ l) (ndiv 0.703125%float (ofZ (2 ^ l))))
                    (levelsUpTo 6))
               256%float 256%float
               (Cartesian2.new (-180)%float 90%float).

Definition pyramidScheme : Scheme64 :=
  new (Some (Options.new (Some pyramidTileInfo) None None None None)).

(** A rectangle 2399812976 * 2^-1074 radians wide, cut in 3 tiles at level
    zero. *)
Definition subnormalEast : float := SF2Prim (S754_finite false 2399812976 (-1074)).

Definition subnormalScheme : Scheme64 :=
  new (Some (Options.new None None
               (Some (Rectangle.new 0%float 0%float subnormalEast 1%float))
               (Some 3%float) None)).

(** ** Stores *)

Lemma assign_length {A : Type} (l : ref) (v : A) (s : list A) :
  length (assign l v s) = length s.
Proof.
  revert l; induction s as [|a s IH]; intros [|l]; simpl; auto.
Qed.

Lemma assign_same {A : Type} (l : ref) (v : A) (s : list A) :
  (l < length s)%nat -> nth_error (assign l v s) l = Some v.
Proof.
  revert l; induction s as [|a s IH]; intros [|l]; simpl; intros Hl;
    try lia; auto.
  apply IH; lia.
Qed.

Lemma nth_error_fresh {A : Type} (s : list A) (v : A) :
  nth_error (s ++ [v]) (length s) = Some v.
Proof.
  induction s as [|a s IH]; simpl; auto.
Qed.

Lemma nth_error_kept {A : Type} (s : list A) (v : A) (l : ref) :
  (l < length s)%nat -> nth_error (s ++ [v]) l = nth_error s l.
Proof.
  intros Hl. apply nth_error_app1. exact Hl.
Qed.

(** ** The level table *)

Section Lookup.
Context {num : Type} {N : JSNumber num}.

Lemma currentMatrix_found (tileInfo : TileInfo.t num) (level : num) :
  existsb (fun item => neqb (Lod.level item) level) (TileInfo.lods tileInfo) = true ->
  exists item rest,
    currentMatrix tileInfo level = item :: rest /\
    In item (TileInfo.lods tileInfo) /\
    neqb (Lod.level item) level = true.
Proof.
  unfold currentMatrix. intros Hex.
  apply existsb_exists in Hex. destruct Hex as [item [Hin Hlevel]].
  assert (Hf : In item (filter (fun item => neqb (Lod.level item) level)
                               (TileInfo.lods tileInfo))).
  { apply filter_In. split; assumption. }
  destruct (filter _ (TileInfo.lods tileInfo)) as [|first rest] eqn:E.
  - contradiction.
  - exists first, rest. split; [reflexivity|].
    assert (Hfirst : In first (first :: rest)) by (left; reflexivity).
    rewrite <- E in Hfirst. apply filter_In in Hfirst. exact Hfirst.
Qed.

Lemma currentMatrix_missing (tileInfo : TileInfo.t num) (level : num) :
  existsb (fun item => neqb (Lod.level item) level) (TileInfo.lods tileInfo) = false ->
  currentMatrix tileInfo level = [].
Proof.
  unfold currentMatrix. intros Hex.
  destruct (filter _ (TileInfo.lods tileInfo)) as [|first rest] eqn:E; [reflexivity|].
  assert (Hfirst : In first (first :: rest)) by (left; reflexivity).
  rewrite <- E in Hfirst. apply filter_In in Hfirst. destruct Hfirst as [Hin Hlevel].
  assert (Htrue : existsb (fun item => neqb (Lod.level item) level)
                          (TileInfo.lods tileInfo) = true).
  { apply existsb_exists. exists first. split; assumption. }
  congruence.
Qed.

End Lookup.

(** ** Properties that hold for every Number arithmetic *)

Section AnyArithmetic.
Context {num : Type} {N : JSNumber num} {C : Collaborators num}.

(** C4.  Construction selects matrix mode ([_tileInfo] defined) exactly when
    the options carry a tileInfo whose spatialReference has wkid 4490.  In
    matrix mode the ellipsoid, rectangle and level-zero tile counts default to
    CGCS2000, the rectangle from (-180, -90, 180, 90) degrees and 4 by 2; in
    standard mode to WGS84, the maximum rectangle and 2 by 1.  A supplied
    ellipsoid, rectangle or tile count is kept in either mode, and the
    projection is built from the resolved ellipsoid. *)
Theorem construction_selects_mode (options : option (Options.t num Ellipsoid)) :
  let o := defaultValue options Options.EMPTY_OBJECT in
  let this := new options in
  (defined (_tileInfo this) = true <->
   exists tileInfo spatialReference wkid,
     Options.tileInfo o = Some tileInfo /\
     TileInfo.spatialReference tileInfo = Some spatialReference /\
     SpatialReference.wkid spatialReference = Some wkid /\
     neqb wkid (ofZ 4490) = true) /\
  (defined (_tileInfo this) = true ->
   _tileInfo this = Options.tileInfo o /\
   resolved (Options.ellipsoid o) Ellipsoid_CGCS2000 (_ellipsoid this) /\
   resolved (Options.rectangle o)
     (Rectangle.fromDegrees (ofZ (-180)) (ofZ (-90)) (ofZ 180) (ofZ 90))
     (_rectangle this) /\
   resolved (Options.numberOfLevelZeroTilesX o) (ofZ 4) (_numberOfLevelZeroTilesX this) /\
   resolved (Options.numberOfLevelZeroTilesY o) (ofZ 2) (_numberOfLevelZeroTilesY this)) /\
  (defined (_tileInfo this) = false ->
   resolved (Options.ellipsoid o) Ellipsoid_WGS84 (_ellipsoid this) /\
   resolved (Options.rectangle o) Rectangle.MAX_VALUE (_rectangle this) /\
   resolved (Options.numberOfLevelZeroTilesX o) (ofZ 2) (_numberOfLevelZeroTilesX this) /\
   resolved (Options.numberOfLevelZeroTilesY o) (ofZ 1) (_numberOfLevelZeroTilesY this)) /\
  _projection this = GeographicProjection.new (_ellipsoid this).
Proof.
  intros o this. subst this. unfold new. fold o.
  assert (Hcond : isCGCS2000 o = true <->
    exists tileInfo spatialReference wkid,
      Options.tileInfo o = Some tileInfo /\
      TileInfo.spatialReference tileInfo = Some spatialReference /\
      SpatialReference.wkid spatialReference = Some wkid /\
      neqb wkid (ofZ 4490) = true).
  { unfold isCGCS2000. split.
    - destruct (Options.tileInfo o) as [ti|]; [|discriminate].
      destruct (TileInfo.spatialReference ti) as [sr|] eqn:Esr; [|discriminate].
      destruct (SpatialReference.wkid sr) as [w|] eqn:Ew; [|discriminate].
      intros Hw. exists ti, sr, w. auto.
    - intros [ti [sr [w [Hti [Hsr [Hw Heq]]]]]].
      rewrite Hti, Hsr, Hw. exact Heq. }
  destruct (isCGCS2000 o) eqn:Emode; cbn [_tileInfo _ellipsoid _rectangle
    _numberOfLevelZeroTilesX _numberOfLevelZeroTilesY _projection].
  - assert (Hdef : defined (Options.tileInfo o) = true).
    { destruct Hcond as [Hcond _]. destruct (Hcond eq_refl) as [ti [_ [_ [Hti _]]]].
      rewrite Hti. reflexivity. }
    rewrite Hdef. split; [|split; [|split]].
    + split; intros _; [apply Hcond|]; reflexivity.
    + intros _. unfold resolved, defaultValue.
      destruct (Options.ellipsoid o), (Options.rectangle o),
        (Options.numberOfLevelZeroTilesX o), (Options.numberOfLevelZeroTilesY o);
        repeat split; reflexivity.
    + discriminate.
    + reflexivity.
  - cbn [defined]. split; [|split; [|split]].
    + split; [discriminate|]. intros H. apply Hcond in H. discriminate.
    + discriminate.
    + intros _. unfold resolved, defaultValue.
      destruct (Options.ellipsoid o), (Options.rectangle o),
        (Options.numberOfLevelZeroTilesX o), (Options.numberOfLevelZeroTilesY o);
        repeat split; reflexivity.
    + reflexivity.
Qed.

(** C6.  A position that the containment test rejects gets [undefined]: the
    call completes normally, in either mode and whatever the level table
    holds, and leaves the store as it was. *)
Theorem outside_position_has_no_tile
  (this : t num Ellipsoid) (position : Cartographic.t num) (level : num)
  (result : option ref) (h : Heap.t num) :
  Rectangle_contains (_rectangle this) position = false ->
  positionToTileXY this position level result h = Normal None h.
Proof.
  intros Hout. unfold positionToTileXY. rewrite Hout. reflexivity.
Qed.

(** C5.  In matrix mode, when some entry of the level table has exactly the
    requested level, the filter keeps an entry and the four operations
    complete normally; when no entry has it, the filter keeps nothing and
    each operation throws where it reads the resolution (positionToTileXY
    after its containment test). *)
Theorem level_lookup_decides_failure
  (this : t num Ellipsoid) (tileInfo : TileInfo.t num) (level : num) :
  _tileInfo this = Some tileInfo ->
  let listed :=
    existsb (fun item => neqb (Lod.level item) level) (TileInfo.lods tileInfo) in
  (listed = true ->
   (exists item rest,
      currentMatrix tileInfo level = item :: rest /\
      In item (TileInfo.lods tileInfo) /\ neqb (Lod.level item) level = true) /\
   forall h : Heap.t num,
     (exists n, getNumberOfXTilesAtLevel this level h = Normal n h) /\
     (exists n, getNumberOfYTilesAtLevel this level h = Normal n h) /\
     (forall x y result, exists r h',
        tileXYToRectangle this x y level result h = Normal r h') /\
     (forall position result, exists r h',
        positionToTileXY this position level result h = Normal r h')) /\
  (listed = false ->
   currentMatrix tileInfo level = [] /\
   forall h : Heap.t num,
     getNumberOfXTilesAtLevel this level h = Throw TypeError /\
     getNumberOfYTilesAtLevel this level h = Throw TypeError /\
     (forall x y result,
        tileXYToRectangle this x y level result h = Throw TypeError) /\
     (forall position result,
        Rectangle_contains (_rectangle this) position = true ->
        positionToTileXY this position level result h = Throw TypeError)).
Proof.
  intros Hmode listed. subst listed. split; intros Hlisted.
  - destruct (currentMatrix_found tileInfo level Hlisted)
      as [item [rest [Hfilter [Hin Hlevel]]]].
    split; [exists item, rest; auto|]. intros h.
    unfold getNumberOfXTilesAtLevel, getNumberOfYTilesAtLevel, tileXYToRectangle,
      positionToTileXY, currentResolution, bind, ret.
    rewrite Hmode, Hfilter. repeat split.
    + eexists; reflexivity.
    + eexists; reflexivity.
    + intros x y [result|]; cbn; eexists; eexists; reflexivity.
    + intros position result.
      destruct (Rectangle_contains (_rectangle this) position); cbn;
        eexists; eexists; reflexivity.
  - pose proof (currentMatrix_missing tileInfo level Hlisted) as Hfilter.
    split; [exact Hfilter|]. intros h.
    unfold getNumberOfXTilesAtLevel, getNumberOfYTilesAtLevel, tileXYToRectangle,
      positionToTileXY, currentResolution, bind, throw.
    rewrite Hmode, Hfilter. repeat split.
    intros position result Hin. rewrite Hin. reflexivity.
Qed.

(** C3, matrix mode.  For a position inside the rectangle and a level of the
    table, positionToTileXY with a [result] pair supplied allocates a new pair
    all the same and returns that one; the supplied pair keeps its
    coordinates. *)
Theorem matrix_mode_ignores_result
  (this : t num Ellipsoid) (tileInfo : TileInfo.t num)
  (position : Cartographic.t num) (level : num) (result : ref) (h : Heap.t num)
  (item : Lod.t num) (rest : list (Lod.t num)) :
  _tileInfo this = Some tileInfo ->
  currentMatrix tileInfo level = item :: rest ->
  Rectangle_contains (_rectangle this) position = true ->
  (result < length (Heap.pairs h))%nat ->
  exists (fresh : ref) (h' : Heap.t num),
    positionToTileXY this position level (Some result) h = Normal (Some fresh) h' /\
    fresh <> result /\
    pairAt h fresh = None /\
    pairAt h' result = pairAt h result.
Proof.
  intros Hmode Hfilter Hin Hlive.
  unfold positionToTileXY, currentResolution, bind, ret, newCartesian2.
  rewrite Hin, Hmode, Hfilter. cbn.
  eexists; eexists. split; [reflexivity|]. unfold pairAt; cbn. repeat split.
  - lia.
  - apply nth_error_None. lia.
  - apply nth_error_kept. exact Hlive.
Qed.

(** The standard branch does what the documentation of [result] says: the
    coordinates are written into the supplied pair, that pair is returned and
    nothing is allocated. *)
(** In standard mode the pair of a position inside the rectangle is the
    [tileIndex] of each axis, the longitude taken a full turn further when
    the rectangle has its east below its west. *)
Lemma standard_mode_pair
  (this : t num Ellipsoid) (position : Cartographic.t num) (level : num)
  (result : option ref) (h : Heap.t num) :
  _tileInfo this = None ->
  Rectangle_contains (_rectangle this) position = true ->
  match result with Some l => (l < length (Heap.pairs h))%nat | None => True end ->
  let rectangle := _rectangle this in
  let xTiles := shl (_numberOfLevelZeroTilesX this) level in
  let yTiles := shl (_numberOfLevelZeroTilesY this) level in
  let longitude :=
    if nltb (Rectangle.east rectangle) (Rectangle.west rectangle)
    then nadd (Cartographic.longitude position) CesiumMath.TWO_PI
    else Cartographic.longitude position in
  returnedPair (positionToTileXY this position level result h)
  = Some (Cartesian2.new
            (tileIndex (nsub longitude (Rectangle.west rectangle))
                       (ndiv (Rectangle.width rectangle) xTiles) xTiles)
            (tileIndex (nsub (Rectangle.north rectangle)
                             (Cartographic.latitude position))
                       (ndiv (Rectangle.height rectangle) yTiles) yTiles)).
Proof.
  intros Hmode Hin Hlive.
  unfold positionToTileXY, getNumberOfXTilesAtLevel, getNumberOfYTilesAtLevel,
    bind, ret, setCartesian2, newCartesian2, tileIndex.
  rewrite Hin, Hmode. cbn.
  destruct result as [l|]; cbn; unfold pairAt; cbn.
  - apply assign_same. exact Hlive.
  - apply nth_error_fresh.
Qed.

(** In standard mode the rectangle of a tile is one cell of the grid that
    cuts the root rectangle in [xTiles] by [yTiles] equal parts. *)
Lemma standard_mode_rectangle
  (this : t num Ellipsoid) (x y level : num) (result : option ref) (h : Heap.t num) :
  _tileInfo this = None ->
  match result with Some l => (l < length (Heap.rectangles h))%nat | None => True end ->
  let rectangle := _rectangle this in
  let xTileWidth :=
    ndiv (Rectangle.width rectangle) (shl (_numberOfLevelZeroTilesX this) level) in
  let yTileHeight :=
    ndiv (Rectangle.height rectangle) (shl (_numberOfLevelZeroTilesY this) level) in
  returnedRectangle (tileXYToRectangle this x y level result h)
  = Some (Rectangle.new
            (nadd (nmul x xTileWidth) (Rectangle.west rectangle))
            (nsub (Rectangle.north rectangle) (nmul (nadd y (ofZ 1)) yTileHeight))
            (nadd (nmul (nadd x (ofZ 1)) xTileWidth) (Rectangle.west rectangle))
            (nsub (Rectangle.north rectangle) (nmul y yTileHeight))).
Proof.
  intros Hmode Hlive.
  unfold tileXYToRectangle, getNumberOfXTilesAtLevel, getNumberOfYTilesAtLevel,
    bind, ret, setRectangle, newRectangle.
  rewrite Hmode. cbn.
  destruct result as [l|]; cbn; unfold rectangleAt; cbn.
  - apply assign_same. exact Hlive.
  - apply assign_same. rewrite length_app. simpl. lia.
Qed.

Lemma Some_inj {A : Type} (a b : A) : Some a = Some b -> a = b.
Proof.
  intros H. injection H as H. exact H.
Qed.

(** In standard mode the tile counts are the level-zero counts shifted left
    by the level. *)
Lemma standard_mode_counts
  (this : t num Ellipsoid) (level : num) (h : Heap.t num) :
  _tileInfo this = None ->
  completedValue (getNumberOfXTilesAtLevel this level h)
  = Some (shl (_numberOfLevelZeroTilesX this) level) /\
  completedValue (getNumberOfYTilesAtLevel this level h)
  = Some (shl (_numberOfLevelZeroTilesY this) level).
Proof.
  intros Hmode. unfold getNumberOfXTilesAtLevel, getNumberOfYTilesAtLevel.
  rewrite Hmode. split; reflexivity.
Qed.

(** Without a [result], tileXYToRectangle completes with a new rectangle. *)
Lemma standard_mode_rectangle_call
  (this : t num Ellipsoid) (x y level : num) (h : Heap.t num) :
  _tileInfo this = None ->
  exists l h',
    tileXYToRectangle this x y level None h = Normal l h' /\
    rectangleAt h' l = returnedRectangle (tileXYToRectangle this x y level None h).
Proof.
  intros Hmode.
  unfold tileXYToRectangle, getNumberOfXTilesAtLevel, getNumberOfYTilesAtLevel,
    bind, ret, setRectangle, newRectangle.
  rewrite Hmode. cbn. eexists; eexists. split; reflexivity.
Qed.

Lemma standard_mode_fills_result
  (this : t num Ellipsoid) (position : Cartographic.t num) (level : num)
  (result : ref) (h : Heap.t num) :
  _tileInfo this = None ->
  Rectangle_contains (_rectangle this) position = true ->
  (result < length (Heap.pairs h))%nat ->
  exists (c : Cartesian2.t num) (h' : Heap.t num),
    positionToTileXY this position level (Some result) h = Normal (Some result) h' /\
    pairAt h' result = Some c /\
    length (Heap.pairs h') = length (Heap.pairs h) /\
    forall fresh c',
      positionToTileXY this position level None h
      = Normal (Some fresh) (Heap.make (Heap.rectangles h) (Heap.pairs h ++ [c'])) ->
      c' = c.
Proof.
  intros Hmode Hin Hlive.
  unfold positionToTileXY, getNumberOfXTilesAtLevel, getNumberOfYTilesAtLevel,
    bind, ret, setCartesian2, newCartesian2.
  rewrite Hin, Hmode. cbn.
  eexists; eexists. split; [reflexivity|]. unfold pairAt; cbn. repeat split.
  - apply assign_same. exact Hlive.
  - apply assign_length.
  - intros fresh c' Heq. injection Heq as _ Hpairs.
    apply app_inv_head in Hpairs. congruence.
Qed.

End AnyArithmetic.

(** ** Properties evaluated on IEEE 754 doubles *)

(** C2, as amended.  In matrix mode with origin (-180, 90), rows = cols = 256
    and a first level-0 entry of resolution 0.703125, tileXYToRectangle(0, 0, 0)
    completes with a rectangle of west -180, north 90, east 0 and south -90
    degrees, each in radians; the rectangle is a new one, or the supplied
    [result] filled in. *)
Theorem matrix_example_rectangle
  (this : Scheme64) (tileInfo : TileInfo.t float)
  (item : Lod.t float) (rest : list (Lod.t float))
  (result : option ref) (h : Heap.t float) :
  _tileInfo this = Some tileInfo ->
  TileInfo.origin tileInfo = Cartesian2.new (-180)%float 90%float ->
  TileInfo.rows tileInfo = 256%float ->
  TileInfo.cols tileInfo = 256%float ->
  currentMatrix tileInfo 0%float = item :: rest ->
  Lod.resolution item = 0.703125%float ->
  match result with Some l => (l < length (Heap.rectangles h))%nat | None => True end ->
  exists (r : ref) (h' : Heap.t float),
    tileXYToRectangle this 0%float 0%float 0%float result h = Normal r h' /\
    rectangleAt h' r = Some exampleRectangle /\
    match result with Some l => r = l | None => rectangleAt h r = None end.
Proof.
  intros Hmode Horigin Hrows Hcols Hfilter Hres Hlive.
  unfold tileXYToRectangle, currentResolution, bind, ret, setRectangle, newRectangle.
  rewrite Hmode, Hfilter, Horigin, Hrows, Hcols, Hres.
  cbn [Cartesian2.x Cartesian2.y].
  match goal with
  | |- context [Rectangle.new ?w ?s ?e ?n] =>
      replace (Rectangle.new w s e n) with exampleRectangle
        by (vm_compute; reflexivity)
  end.
  destruct result as [l|]; cbn; eexists; eexists; (split; [reflexivity|]);
    unfold rectangleAt; cbn.
  - split; [apply assign_same; exact Hlive | reflexivity].
  - split; [|apply nth_error_None; lia].
    apply assign_same. rewrite length_app. simpl. lia.
Qed.

Lemma matrix_example_rectangle_witness :
  exists (r : ref) (h' : Heap.t float),
    tileXYToRectangle exampleMatrixScheme 0%float 0%float 0%float None emptyHeap
    = Normal r h' /\
    rectangleAt h' r = Some exampleRectangle /\
    rectangleAt emptyHeap r = None.
Proof.
  exact (matrix_example_rectangle exampleMatrixScheme exampleTileInfo
           (Lod.new 0%float 0.703125%float) [] None emptyHeap
           eq_refl eq_refl eq_refl eq_refl eq_refl eq_refl I).
Defined.

(** C2 as stated fails: the south bound of the example is not 0 degrees. *)
Lemma matrix_example_south_is_not_zero :
  returnedRectangle
    (tileXYToRectangle exampleMatrixScheme 0%float 0%float 0%float None emptyHeap)
  <> Some claimedExampleRectangle.
Proof.
  intros H.
  apply (f_equal (fun o => match o with
                           | Some r => Prim2SF (Rectangle.south r)
                           | None => S754_nan
                           end)) in H.
  vm_compute in H. discriminate H.
Qed.

(** Math.round on doubles: ties go toward +infinity. *)
Lemma Math_round_ties :
  Math_round 0.5%float = 1%float /\ Math_round 2.5%float = 3%float /\
  Math_round (-2.5)%float = (-2)%float /\ Math_round (-0.5)%float = (-0)%float /\
  roundHalfAwayFromZero (-2.5)%float = (-3)%float.
Proof.
  vm_compute. repeat split; reflexivity.
Qed.

(** C1, as amended.  In matrix mode, at a level whose first matching entry
    has resolution [r], getNumberOfXTilesAtLevel is Math.round(360 / (rows * r))
    and getNumberOfYTilesAtLevel is Math.round(180 / (cols * r)); Math.round
    is round half away from zero on a quotient that is not negative. *)
Theorem matrix_tile_counts
  (this : Scheme64) (tileInfo : TileInfo.t float) (level : float)
  (item : Lod.t float) (rest : list (Lod.t float)) (h : Heap.t float) :
  _tileInfo this = Some tileInfo ->
  currentMatrix tileInfo level = item :: rest ->
  let qx := (360 / (TileInfo.rows tileInfo * Lod.resolution item))%float in
  let qy := (180 / (TileInfo.cols tileInfo * Lod.resolution item))%float in
  getNumberOfXTilesAtLevel this level h = Normal (Math_round qx) h /\
  getNumberOfYTilesAtLevel this level h = Normal (Math_round qy) h /\
  ((qx <? 0)%float = false -> Math_round qx = roundHalfAwayFromZero qx) /\
  ((qy <? 0)%float = false -> Math_round qy = roundHalfAwayFromZero qy).
Proof.
  intros Hmode Hfilter qx qy.
  unfold getNumberOfXTilesAtLevel, getNumberOfYTilesAtLevel, currentResolution,
    bind, ret.
  rewrite Hmode, Hfilter.
  replace (CesiumMath.toDegrees CesiumMath.TWO_PI) with 360%float
    by (vm_compute; reflexivity).
  replace (CesiumMath.toDegrees (ndiv CesiumMath.TWO_PI (ofZ 2))) with 180%float
    by (vm_compute; reflexivity).
  split; [reflexivity|]. split; [reflexivity|].
  split; intros Hq; unfold roundHalfAwayFromZero.
  - change (nltb qx (ofZ 0)) with (qx <? 0)%float. rewrite Hq. reflexivity.
  - change (nltb qy (ofZ 0)) with (qy <? 0)%float. rewrite Hq. reflexivity.
Qed.

Lemma matrix_tile_counts_witness :
  getNumberOfXTilesAtLevel exampleMatrixScheme 0%float emptyHeap
  = Normal 2%float emptyHeap /\
  getNumberOfYTilesAtLevel exampleMatrixScheme 0%float emptyHeap
  = Normal 1%float emptyHeap.
Proof.
  destruct (matrix_tile_counts exampleMatrixScheme exampleTileInfo 0%float
              (Lod.new 0%float 0.703125%float) [] emptyHeap eq_refl eq_refl)
    as [Hx [Hy _]].
  split; [exact Hx | exact Hy].
Defined.

(** C1 as stated fails: the example has 2 tiles in X at level 0, and
    round(180 / (256 * 0.703125)) is 1. *)
Lemma matrix_tile_count_is_not_claimed :
  ~ (completedValue (getNumberOfXTilesAtLevel exampleMatrixScheme 0%float emptyHeap)
     = Some (claimedTilesX exampleTileInfo 0.703125%float) /\
     completedValue (getNumberOfYTilesAtLevel exampleMatrixScheme 0%float emptyHeap)
     = Some (claimedTilesY exampleTileInfo 0.703125%float)).
Proof.
  intros [Hx _].
  apply (f_equal (fun o => match o with
                           | Some n => Prim2SF n
                           | None => S754_nan
                           end)) in Hx.
  vm_compute in Hx. discriminate Hx.
Qed.

(** *** Tile counts of the standard mode *)

Lemma wrap32_small (z : Z) :
  (- 2 ^ 31 <= z < 2 ^ 31)%Z -> wrap32 z = z.
Proof.
  unfold wrap32. change (2 ^ 31)%Z with 2147483648%Z.
  change (2 ^ 32)%Z with 4294967296%Z. intros Hz.
  rewrite Z.mod_small; lia.
Qed.

Lemma wrap32_range (z : Z) : (- 2 ^ 31 <= wrap32 z < 2 ^ 31)%Z.
Proof.
  unfold wrap32. change (2 ^ 31)%Z with 2147483648%Z.
  change (2 ^ 32)%Z with 4294967296%Z.
  pose proof (Z.mod_pos_bound (z + 2147483648) 4294967296). lia.
Qed.

Lemma in_levelsUpTo (n : nat) (l : Z) :
  (0 <= l <= Z.of_nat n)%Z -> In l (levelsUpTo n).
Proof.
  intros Hl. unfold levelsUpTo. apply in_map_iff.
  exists (Z.to_nat l). split; [lia|]. apply in_seq. lia.
Qed.

(** A level from 0 to 20, and the next one, are read back by the shift as
    they are. *)
Lemma level_shift_count (level : Z) :
  (0 <= level <= 20)%Z ->
  ToInt32 (ofZ level : float) = level /\
  ToInt32 (nadd (ofZ level) (ofZ 1) : float) = (level + 1)%Z.
Proof.
  intros Hl.
  assert (Hall : forallb (fun l =>
              (ToInt32 (ofZ l : float) =? l)%Z &&
              (ToInt32 (nadd (ofZ l) (ofZ 1) : float) =? l + 1)%Z)
            (levelsUpTo 20) = true) by (vm_compute; reflexivity).
  rewrite forallb_forall in Hall.
  specialize (Hall level (in_levelsUpTo 20 level Hl)).
  apply andb_true_iff in Hall. destruct Hall as [H0 H1].
  split; apply Z.eqb_eq; assumption.
Qed.

Lemma shl_exact {num : Type} {N : JSNumber num} (a b : num) (n l : Z) :
  ToInt32 a = n -> ToInt32 b = l -> (0 <= l < 32)%Z ->
  (- 2 ^ 31 <= n * 2 ^ l < 2 ^ 31)%Z ->
  shl a b = ofZ (n * 2 ^ l).
Proof.
  intros Ha Hb Hl Hn. unfold shl. rewrite Ha, Hb.
  rewrite Z.mod_small by lia. rewrite Z.shiftl_mul_pow2 by lia.
  rewrite wrap32_small by exact Hn. reflexivity.
Qed.

(** C9, as amended.  In standard mode, for a level from 0 to 20, the number
    of tiles is the level-zero count (as a 32-bit integer) times 2^level, and
    at level + 1 it is twice that, in X and in Y, as long as the doubled
    count fits in a signed 32-bit integer. *)
Theorem standard_tile_counts_double
  (this : Scheme64) (level : Z) (h : Heap.t float) :
  _tileInfo this = None ->
  (0 <= level <= 20)%Z ->
  let nx := ToInt32 (_numberOfLevelZeroTilesX this) in
  let ny := ToInt32 (_numberOfLevelZeroTilesY this) in
  (- 2 ^ 31 <= nx * 2 ^ (level + 1) < 2 ^ 31)%Z ->
  (- 2 ^ 31 <= ny * 2 ^ (level + 1) < 2 ^ 31)%Z ->
  getNumberOfXTilesAtLevel this (ofZ level) h = Normal (ofZ (nx * 2 ^ level)) h /\
  getNumberOfXTilesAtLevel this (nadd (ofZ level) (ofZ 1)) h
  = Normal (ofZ (2 * (nx * 2 ^ level))) h /\
  getNumberOfYTilesAtLevel this (ofZ level) h = Normal (ofZ (ny * 2 ^ level)) h /\
  getNumberOfYTilesAtLevel this (nadd (ofZ level) (ofZ 1)) h
  = Normal (ofZ (2 * (ny * 2 ^ level))) h.
Proof.
  intros Hmode Hlevel nx ny Hnx Hny.
  destruct (level_shift_count level Hlevel) as [Hl Hl1].
  unfold getNumberOfXTilesAtLevel, getNumberOfYTilesAtLevel, ret. rewrite Hmode.
  assert (Hpow : (2 ^ (level + 1) = 2 * 2 ^ level)%Z)
    by (replace (level + 1)%Z with (Z.succ level) by lia;
        rewrite Z.pow_succ_r by lia; reflexivity).
  rewrite Hpow in Hnx, Hny.
  rewrite (shl_exact _ _ nx level eq_refl Hl) by lia.
  rewrite (shl_exact _ _ nx (level + 1) eq_refl Hl1) by (rewrite ?Hpow; lia).
  rewrite (shl_exact _ _ ny level eq_refl Hl) by lia.
  rewrite (shl_exact _ _ ny (level + 1) eq_refl Hl1) by (rewrite ?Hpow; lia).
  rewrite Hpow.
  replace (nx * (2 * 2 ^ level))%Z with (2 * (nx * 2 ^ level))%Z by ring.
  replace (ny * (2 * 2 ^ level))%Z with (2 * (ny * 2 ^ level))%Z by ring.
  repeat split; reflexivity.
Qed.

Lemma standard_tile_counts_double_witness :
  getNumberOfXTilesAtLevel defaultScheme (ofZ 20) emptyHeap
  = Normal (ofZ (2 * 2 ^ 20)) emptyHeap /\
  getNumberOfXTilesAtLevel defaultScheme (nadd (ofZ 20) (ofZ 1)) emptyHeap
  = Normal (ofZ (2 * (2 * 2 ^ 20))) emptyHeap /\
  getNumberOfYTilesAtLevel defaultScheme (ofZ 20) emptyHeap
  = Normal (ofZ (1 * 2 ^ 20)) emptyHeap /\
  getNumberOfYTilesAtLevel defaultScheme (nadd (ofZ 20) (ofZ 1)) emptyHeap
  = Normal (ofZ (2 * (1 * 2 ^ 20))) emptyHeap.
Proof.
  apply (standard_tile_counts_double defaultScheme 20%Z emptyHeap eq_refl).
  - lia.
  - vm_compute. split; [discriminate | reflexivity].
  - vm_compute. split; [discriminate | reflexivity].
Defined.

(** C9 as stated fails past 32 bits: with 1024 tiles at level zero, the count
    at level 21 is -2147483648, and twice the count at level 20 is
    2147483648. *)
Lemma overflowing_count_is_not_doubled :
  completedValue
    (getNumberOfXTilesAtLevel scheme1024 (nadd (ofZ 20) (ofZ 1)) emptyHeap)
  <> option_map (nmul (ofZ 2))
       (completedValue (getNumberOfXTilesAtLevel scheme1024 (ofZ 20) emptyHeap)).
Proof.
  intros H.
  apply (f_equal (fun o => match o with
                           | Some n => Prim2SF n
                           | None => S754_nan
                           end)) in H.
  vm_compute in H. discriminate H.
Qed.

(** *** Witnesses of the properties of every arithmetic *)

(** A longitude of 4 radians is outside the default rectangle. *)
Lemma outside_position_has_no_tile_witness :
  positionToTileXY defaultScheme (Cartographic.new 4%float 0%float 0%float)
    3%float None emptyHeap
  = Normal None emptyHeap.
Proof.
  exact (outside_position_has_no_tile defaultScheme
           (Cartographic.new 4%float 0%float 0%float) 3%float None emptyHeap
           eq_refl).
Defined.

(** The example matrix lists level 0 and does not list level 1. *)
Lemma level_lookup_decides_failure_witness :
  (exists n, getNumberOfXTilesAtLevel exampleMatrixScheme 0%float emptyHeap
             = Normal n emptyHeap) /\
  getNumberOfXTilesAtLevel exampleMatrixScheme 1%float emptyHeap = Throw TypeError.
Proof.
  split.
  - destruct (level_lookup_decides_failure exampleMatrixScheme exampleTileInfo
                0%float eq_refl) as [Hlisted _].
    destruct (Hlisted eq_refl) as [_ Hcalls].
    destruct (Hcalls emptyHeap) as [Hx _]. exact Hx.
  - destruct (level_lookup_decides_failure exampleMatrixScheme exampleTileInfo
                1%float eq_refl) as [_ Hmissing].
    destruct (Hmissing eq_refl) as [_ Hcalls].
    destruct (Hcalls emptyHeap) as [Hx _]. exact Hx.
Defined.

Lemma matrix_mode_ignores_result_witness :
  exists (fresh : ref) (h' : Heap.t float),
    positionToTileXY exampleMatrixScheme nullIsland 0%float (Some 0%nat) heapWithPair
    = Normal (Some fresh) h' /\
    fresh <> 0%nat /\
    pairAt heapWithPair fresh = None /\
    pairAt h' 0%nat = pairAt heapWithPair 0%nat.
Proof.
  exact (matrix_mode_ignores_result exampleMatrixScheme exampleTileInfo nullIsland
           0%float 0%nat heapWithPair (Lod.new 0%float 0.703125%float) []
           eq_refl eq_refl eq_refl (le_n 1)).
Defined.

(** C3 at this input: pair 0 was supplied; pair 1 is allocated and returned,
    and pair 0 still holds (7, 7). *)
Example matrix_mode_allocates :
  positionToTileXY exampleMatrixScheme nullIsland 0%float (Some 0%nat) heapWithPair
  = Normal (Some 1%nat)
      (Heap.make [] [Cartesian2.new 7%float 7%float; Cartesian2.new 1%float 0%float]).
Proof.
  vm_compute. reflexivity.
Qed.

(** The same call on the default scheme fills pair 0 and returns it. *)
Example standard_mode_reuses :
  positionToTileXY defaultScheme nullIsland 0%float (Some 0%nat) heapWithPair
  = Normal (Some 0%nat) (Heap.make [] [Cartesian2.new 1%float 0%float]).
Proof.
  vm_compute. reflexivity.
Qed.

(** *** A root rectangle across the antimeridian *)

(** In standard mode, when the east of the root rectangle is less than its
    west, the x coordinate of every position inside it is the tile index of
    its longitude plus 2 pi, measured from the west of the rectangle. *)
Lemma wrapped_rectangle_adds_full_turn
  {num : Type} {N : JSNumber num} {C : Collaborators num}
  (this : t num Ellipsoid) (position : Cartographic.t num) (level : num)
  (result : option ref) (h : Heap.t num) :
  _tileInfo this = None ->
  Rectangle_contains (_rectangle this) position = true ->
  nltb (Rectangle.east (_rectangle this)) (Rectangle.west (_rectangle this)) = true ->
  match result with Some l => (l < length (Heap.pairs h))%nat | None => True end ->
  column (returnedPair (positionToTileXY this position level result h))
  = Some (tileIndex
            (nsub (nadd (Cartographic.longitude position) CesiumMath.TWO_PI)
                  (Rectangle.west (_rectangle this)))
            (ndiv (Rectangle.width (_rectangle this))
                  (shl (_numberOfLevelZeroTilesX this) level))
            (shl (_numberOfLevelZeroTilesX this) level)).
Proof.
  intros Hmode Hin Hwrap Hlive.
  rewrite (standard_mode_pair this position level result h Hmode Hin Hlive).
  cbn [column option_map Cartesian2.x]. rewrite Hwrap. reflexivity.
Qed.

(** C7.  With the root rectangle from 170 to -170 degrees, the longitudes 175
    and -175 degrees are both inside it, and positionToTileXY sends both to
    the same tile at level 0 (tile 1 of 2) and at level 1 (tile 3 of 4), and
    to tiles 7 and 6, 15 and 12 at levels 2 and 3: the tile of -175 degrees is
    never the one after the tile of 175 degrees.  The full turn is added to
    175 degrees too, which lands past the last tile and is clamped to it; the
    rectangle that holds 175 degrees at level 0 is that of tile 0. *)
Theorem antimeridian_same_tile :
  Rectangle_contains (_rectangle (wrappedExample : Scheme64)) (onEquator 175) = true /\
  Rectangle_contains (_rectangle (wrappedExample : Scheme64)) (onEquator (-175)) = true /\
  map (fun level =>
         (column (returnedPair
                    (positionToTileXY (wrappedExample : Scheme64) (onEquator 175)
                       (ofZ level) None emptyHeap)),
          column (returnedPair
                    (positionToTileXY (wrappedExample : Scheme64) (onEquator (-175))
                       (ofZ level) None emptyHeap))))
      (levelsUpTo 3)
  = [(Some 1%float, Some 1%float); (Some 3%float, Some 3%float);
     (Some 7%float, Some 6%float); (Some 15%float, Some 12%float)] /\
  match tileBounds (wrappedExample : Scheme64) 0%float 0%float 0%float with
  | Some r =>
      nleb (Rectangle.west r) (CesiumMath.toRadians 175%float) = true /\
      nleb (CesiumMath.toRadians 175%float) (Rectangle.east r) = true
  | None => False
  end.
Proof.
  vm_compute. repeat split; reflexivity.
Qed.

(** ** The defect of the antimeridian handling in the round trip and in the
    range of the tiles *)

(** C8.  At level 0 the rectangle from 170 to -170 degrees has 2 by 1 tiles.
    The rectangle of tile (0, 0) runs from 170 to 180 degrees and its centre
    is at 175 degrees; positionToTileXY sends that centre to tile (1, 0),
    not back to (0, 0). *)
Theorem wrapped_round_trip_fails :
  valueIs (completedValue
             (getNumberOfXTilesAtLevel (wrappedExample : Scheme64) 0%float emptyHeap)) 2
  = true /\
  valueIs (completedValue
             (getNumberOfYTilesAtLevel (wrappedExample : Scheme64) 0%float emptyHeap)) 1
  = true /\
  option_map (fun r => Cartographic.longitude (Rectangle.center r))
             (tileBounds (wrappedExample : Scheme64) 0%float 0%float 0%float)
  = Some (CesiumMath.toRadians 175%float) /\
  roundTrip (wrappedExample : Scheme64) 0%float 0%float 0%float emptyHeap
  = Some (Cartesian2.new 1%float 0%float) /\
  pairIs (roundTrip (wrappedExample : Scheme64) 0%float 0%float 0%float emptyHeap) 0 0
  = false.
Proof.
  vm_compute. repeat split; reflexivity.
Qed.

(** C10.  At level 26 the rectangle from 170 to -170 degrees has 2^27 by 2^26
    tiles.  The position at 175 degrees on the equator is inside it, and
    positionToTileXY gives it the x coordinate -1845493760: the full turn
    added to the longitude makes the quotient 18.25 * 2^27, more than 2^31,
    which [| 0] wraps to a negative integer that the clamp lets through. *)
Theorem wrapped_tile_out_of_range :
  Rectangle_contains (_rectangle (wrappedExample : Scheme64)) (onEquator 175) = true /\
  completedValue (getNumberOfXTilesAtLevel (wrappedExample : Scheme64) 26%float emptyHeap)
  = Some 134217728%float /\
  completedValue (getNumberOfYTilesAtLevel (wrappedExample : Scheme64) 26%float emptyHeap)
  = Some 67108864%float /\
  returnedPair
    (positionToTileXY (wrappedExample : Scheme64) (onEquator 175) 26%float None emptyHeap)
  = Some (Cartesian2.new (-1845493760)%float 33554432%float) /\
  ~ tileInRange
      (returnedPair
         (positionToTileXY (wrappedExample : Scheme64) (onEquator 175) 26%float
            None emptyHeap))
      (Some 134217728%float) (Some 67108864%float).
Proof.
  split; [vm_compute; reflexivity|]. split; [vm_compute; reflexivity|].
  split; [vm_compute; reflexivity|]. split; [vm_compute; reflexivity|].
  intros H. vm_compute in H. destruct H as [H _]. discriminate H.
Qed.

(** The wrap of [| 0] also shows without the antimeridian: a rectangle
    2399812976 * 2^-1074 radians wide with 3 level-zero tiles has 3 * 2^29
    tiles at level 29; the width of a tile rounds to 2^-1074, the quotient
    for the east edge is 2399812976, and the x coordinate is -1895154320. *)
Example subnormal_rectangle_tile_value :
  Rectangle_contains (_rectangle subnormalScheme)
    (Cartographic.new subnormalEast 0%float 0%float) = true /\
  completedValue (getNumberOfXTilesAtLevel subnormalScheme 29%float emptyHeap)
  = Some 1610612736%float /\
  column (returnedPair
            (positionToTileXY subnormalScheme
               (Cartographic.new subnormalEast 0%float 0%float) 29%float None emptyHeap))
  = Some (-1895154320)%float.
Proof.
  vm_compute. repeat split; reflexivity.
Qed.

(** *** The round trip on doubles, for the default scheme *)

Lemma in_range (n : nat) (z : Z) : (0 <= z < Z.of_nat n)%Z -> In z (range n).
Proof.
  intros Hz. unfold range. apply in_map_iff.
  exists (Z.to_nat z). split; [lia|]. apply in_seq. lia.
Qed.

Lemma in_tilesUpTo (n : nat) (level x y : Z) :
  (0 <= level <= Z.of_nat n)%Z ->
  (0 <= x < 2 * 2 ^ level)%Z -> (0 <= y < 2 ^ level)%Z ->
  In (level, x, y) (tilesUpTo n).
Proof.
  intros Hl Hx Hy. unfold tilesUpTo.
  assert (Hpow : Z.of_nat (2 ^ Z.to_nat level) = (2 ^ level)%Z).
  { rewrite Nat2Z.inj_pow. rewrite Z2Nat.id by lia. reflexivity. }
  apply in_flat_map. exists (Z.to_nat level). split; [apply in_seq; lia|].
  apply in_flat_map. exists x. split.
  - apply in_range. rewrite Nat2Z.inj_mul, Hpow. lia.
  - apply in_map_iff. exists y. split.
    + rewrite Z2Nat.id by lia. reflexivity.
    + apply in_range. rewrite Hpow. lia.
Qed.

(** On IEEE doubles, for the scheme of [new GeographicTilingScheme()], every
    level from 0 to 6 and every tile (x, y) of the level, positionToTileXY of
    the centre of tileXYToRectangle(x, y, level) is (x, y). *)
Theorem default_round_trip_on_doubles (level x y : Z) :
  (0 <= level <= 6)%Z ->
  (0 <= x < 2 * 2 ^ level)%Z -> (0 <= y < 2 ^ level)%Z ->
  pairIs (roundTrip defaultScheme (ofZ x) (ofZ y) (ofZ level) emptyHeap) x y = true.
Proof.
  intros Hl Hx Hy.
  assert (Hall : forallb (fun t =>
              match t with
              | (l, a, b) =>
                  pairIs (roundTrip defaultScheme (ofZ a) (ofZ b) (ofZ l) emptyHeap) a b
              end) (tilesUpTo 6) = true) by (vm_compute; reflexivity).
  rewrite forallb_forall in Hall.
  exact (Hall (level, x, y) (in_tilesUpTo 6 level x y Hl Hx Hy)).
Qed.

Lemma default_round_trip_on_doubles_witness :
  pairIs (roundTrip defaultScheme (ofZ 100) (ofZ 37) (ofZ 6) emptyHeap) 100 37 = true.
Proof.
  apply (default_round_trip_on_doubles 6 100 37); lia.
Defined.

(** A root rectangle without width sends every tile of a row to the same
    centre: the round trip of tile (1, 0) gives (0, 0). *)
Example empty_rectangle_round_trip :
  roundTrip
    (new (Some (Options.new None None
                  (Some (Rectangle.new 0%float 0%float 0%float 1%float)) None None))
     : Scheme64)
    1%float 0%float 0%float emptyHeap
  = Some (Cartesian2.new 0%float 0%float).
Proof.
  vm_compute. reflexivity.
Qed.

(** *** The round trip on doubles, in matrix mode *)

(** On IEEE doubles, for the tile matrix of levels 0 .. 6 whose resolution is
    0.703125 / 2^level degrees per pixel, with 256 by 256 pixel tiles and the
    origin (-180, 90): a level has 2 * 2^level by 2^level tiles, and for every
    tile (x, y) of the level, positionToTileXY of the centre of
    tileXYToRectangle(x, y, level) is (x, y). *)
Theorem matrix_round_trip_on_doubles (level x y : Z) :
  (0 <= level <= 6)%Z ->
  (0 <= x < 2 * 2 ^ level)%Z -> (0 <= y < 2 ^ level)%Z ->
  valueIs (completedValue
             (getNumberOfXTilesAtLevel pyramidScheme (ofZ level) emptyHeap))
          (2 * 2 ^ level) = true /\
  valueIs (completedValue
             (getNumberOfYTilesAtLevel pyramidScheme (ofZ level) emptyHeap))
          (2 ^ level) = true /\
  pairIs (roundTrip pyramidScheme (ofZ x) (ofZ y) (ofZ level) emptyHeap) x y = true.
Proof.
  intros Hl Hx Hy.
  assert (Hcounts : forallb (fun l =>
              valueIs (completedValue
                         (getNumberOfXTilesAtLevel pyramidScheme (ofZ l) emptyHeap))
                      (2 * 2 ^ l) &&
              valueIs (completedValue
                         (getNumberOfYTilesAtLevel pyramidScheme (ofZ l) emptyHeap))
                      (2 ^ l)) (levelsUpTo 6) = true) by (vm_compute; reflexivity).
  assert (Hall : forallb (fun t =>
              match t with
              | (l, a, b) =>
                  pairIs (roundTrip pyramidScheme (ofZ a) (ofZ b) (ofZ l) emptyHeap) a b
              end) (tilesUpTo 6) = true) by (vm_compute; reflexivity).
  rewrite forallb_forall in Hcounts, Hall.
  pose proof (Hcounts level (in_levelsUpTo 6 level Hl)) as Hc.
  apply andb_prop in Hc. destruct Hc as [Hcx Hcy].
  split; [exact Hcx|]. split; [exact Hcy|].
  exact (Hall (level, x, y) (in_tilesUpTo 6 level x y Hl Hx Hy)).
Qed.

Lemma matrix_round_trip_on_doubles_witness :
  valueIs (completedValue
             (getNumberOfXTilesAtLevel pyramidScheme (ofZ 5) emptyHeap))
          (2 * 2 ^ 5) = true /\
  valueIs (completedValue
             (getNumberOfYTilesAtLevel pyramidScheme (ofZ 5) emptyHeap))
          (2 ^ 5) = true /\
  pairIs (roundTrip pyramidScheme (ofZ 41) (ofZ 17) (ofZ 5) emptyHeap) 41 17 = true.
Proof.
  apply (matrix_round_trip_on_doubles 5 41 17); lia.
Defined.

(** *** The tiles of a level and the root rectangle, on doubles *)

(** On IEEE doubles, for the scheme of [new GeographicTilingScheme()] and
    every level from 0 to 29: the west and north of tile (0, 0) and the east
    and south of the last tile, (2 * 2^level - 1, 2^level - 1), are the west,
    north, east and south of the root rectangle, each under [===]. *)
Theorem default_tiles_reach_edges_on_doubles (level : Z) :
  (0 <= level <= 29)%Z ->
  reachesEdges (_rectangle defaultScheme)
    (tileBounds defaultScheme 0%float 0%float (ofZ level))
    (tileBounds defaultScheme (ofZ (2 * 2 ^ level - 1)) (ofZ (2 ^ level - 1))
       (ofZ level))
  = true.
Proof.
  intros Hl.
  assert (Hall : forallb (fun l =>
              reachesEdges (_rectangle defaultScheme)
                (tileBounds defaultScheme 0%float 0%float (ofZ l))
                (tileBounds defaultScheme (ofZ (2 * 2 ^ l - 1)) (ofZ (2 ^ l - 1))
                   (ofZ l))) (levelsUpTo 29) = true) by (vm_compute; reflexivity).
  rewrite forallb_forall in Hall.
  exact (Hall level (in_levelsUpTo 29 level Hl)).
Qed.

Lemma default_tiles_reach_edges_on_doubles_witness :
  reachesEdges (_rectangle defaultScheme)
    (tileBounds defaultScheme 0%float 0%float (ofZ 29))
    (tileBounds defaultScheme (ofZ (2 * 2 ^ 29 - 1)) (ofZ (2 ^ 29 - 1)) (ofZ 29))
  = true.
Proof.
  apply (default_tiles_reach_edges_on_doubles 29); lia.
Defined.

(** At level 30 the count [2 << 30] is negative, the width of a tile with it,
    and the edges are not reached. *)
Example default_tiles_miss_edges_at_level_30 :
  completedValue (getNumberOfXTilesAtLevel defaultScheme 30%float emptyHeap)
  = Some (-2147483648)%float /\
  reachesEdges (_rectangle defaultScheme)
    (tileBounds defaultScheme 0%float 0%float 30%float)
    (tileBounds defaultScheme (ofZ (2 * 2 ^ 30 - 1)) (ofZ (2 ^ 30 - 1)) 30%float)
  = false.
Proof.
  vm_compute. split; reflexivity.
Qed.

(** * Further properties of the operations *)

(** ** Calls as functions of the store *)

Lemma assign_other {A : Type} (l l' : ref) (v : A) (s : list A) :
  l <> l' -> nth_error (assign l v s) l' = nth_error s l'.
Proof.
  revert l l'; induction s as [|a s IH]; intros [|l] [|l'] Hne; simpl;
    try congruence; auto.
Qed.

Lemma assign_fresh {A : Type} (v w : A) (s : list A) :
  assign (length s) v (s ++ [w]) = s ++ [v].
Proof.
  induction s as [|a s IH]; simpl; [reflexivity|]. rewrite IH. reflexivity.
Qed.

Lemma assign_twice {A : Type} (l : ref) (v w : A) (s : list A) :
  assign l v (assign l w s) = assign l v s.
Proof.
  revert l; induction s as [|a s IH]; intros [|l]; simpl; try reflexivity.
  rewrite IH. reflexivity.
Qed.

Lemma nth_error_live {A : Type} (s : list A) (l : ref) (v : A) :
  nth_error s l = Some v -> (l < length s)%nat.
Proof.
  intros H. apply nth_error_Some. congruence.
Qed.

Section Calls.
Context {num : Type} {N : JSNumber num} {C : Collaborators num}.

Lemma tileXYToRectangle_call
  (this : t num Ellipsoid) (x y level : num) (result : option ref) (h : Heap.t num) :
  tileXYToRectangle this x y level result h
  = match tileBounds this x y level with
    | None => Throw TypeError
    | Some b =>
        match result with
        | None =>
            Normal (length (Heap.rectangles h))
                   (Heap.make (Heap.rectangles h ++ [b]) (Heap.pairs h))
        | Some l =>
            Normal l (Heap.make (assign l b (Heap.rectangles h)) (Heap.pairs h))
        end
    end.
Proof.
  unfold tileBounds, tileXYToRectangle, getNumberOfXTilesAtLevel,
    getNumberOfYTilesAtLevel, currentResolution, bind, ret, throw, setRectangle,
    newRectangle.
  destruct (_tileInfo this) as [tileInfo|].
  - destruct (currentMatrix tileInfo level) as [|item rest]; [reflexivity|].
    cbn. destruct result as [l|]; cbn; [reflexivity|].
    rewrite assign_fresh. reflexivity.
  - cbn. destruct result as [l|]; cbn; [reflexivity|].
    rewrite assign_fresh. reflexivity.
Qed.

Lemma returned_is_bounds
  (this : t num Ellipsoid) (x y level : num) (h : Heap.t num) :
  returnedRectangle (tileXYToRectangle this x y level None h)
  = tileBounds this x y level.
Proof.
  rewrite tileXYToRectangle_call.
  destruct (tileBounds this x y level) as [b|]; [|reflexivity].
  apply nth_error_fresh.
Qed.

(** Neighbouring tiles share their edges, bit for bit: in either mode and in
    every arithmetic, when tileXYToRectangle completes for a tile, it
    completes for the tile to its east and the tile to its south; the west of
    the eastern neighbour is the east of the tile, the north of the southern
    neighbour is its south, and the neighbours keep the other bounds of the
    row and of the column. *)
Theorem adjacent_tiles_share_edges
  (this : t num Ellipsoid) (x y level : num) (h : Heap.t num) (r : Rectangle.t num) :
  returnedRectangle (tileXYToRectangle this x y level None h) = Some r ->
  exists rx ry,
    returnedRectangle (tileXYToRectangle this (nadd x (ofZ 1)) y level None h) = Some rx /\
    returnedRectangle (tileXYToRectangle this x (nadd y (ofZ 1)) level None h) = Some ry /\
    Rectangle.west rx = Rectangle.east r /\
    Rectangle.north rx = Rectangle.north r /\
    Rectangle.south rx = Rectangle.south r /\
    Rectangle.north ry = Rectangle.south r /\
    Rectangle.west ry = Rectangle.west r /\
    Rectangle.east ry = Rectangle.east r.
Proof.
  rewrite !returned_is_bounds.
  unfold tileBounds, tileXYToRectangle, getNumberOfXTilesAtLevel,
    getNumberOfYTilesAtLevel, currentResolution, bind, ret, throw, setRectangle,
    newRectangle.
  destruct (_tileInfo this) as [tileInfo|].
  - destruct (currentMatrix tileInfo level) as [|item rest]; [discriminate|].
    cbn. intros Hr. apply Some_inj in Hr. subst r.
    eexists; eexists. repeat split; reflexivity.
  - cbn. intros Hr. apply Some_inj in Hr. subst r.
    eexists; eexists. repeat split; reflexivity.
Qed.

(** tileXYToRectangle touches one rectangle only: it leaves the pairs and
    every other rectangle of the store as they were; with a [result] it
    returns that reference and allocates nothing, without one it returns a
    reference that denoted nothing before. *)
Theorem tileXYToRectangle_frame
  (this : t num Ellipsoid) (x y level : num) (result : option ref)
  (h h' : Heap.t num) (r : ref) :
  tileXYToRectangle this x y level result h = Normal r h' ->
  Heap.pairs h' = Heap.pairs h /\
  (forall l, l <> r -> rectangleAt h' l = rectangleAt h l) /\
  match result with
  | Some l => r = l /\ length (Heap.rectangles h') = length (Heap.rectangles h)
  | None => rectangleAt h r = None /\
            length (Heap.rectangles h') = S (length (Heap.rectangles h))
  end.
Proof.
  rewrite tileXYToRectangle_call.
  destruct (tileBounds this x y level) as [b|]; [|discriminate].
  destruct result as [l|]; intros Hcall.
  - assert (Hr : l = r) by (apply (f_equal completedValue) in Hcall;
                            apply Some_inj in Hcall; exact Hcall).
    subst l.
    assert (Hh : h' = Heap.make (assign r b (Heap.rectangles h)) (Heap.pairs h)).
    { apply (f_equal (fun c => match c with Normal _ k => k | Throw _ => h' end))
        in Hcall. symmetry. exact Hcall. }
    subst h'. unfold rectangleAt. cbn. repeat split.
    + intros l Hl. apply assign_other. congruence.
    + apply assign_length.
  - assert (Hr : length (Heap.rectangles h) = r)
      by (apply (f_equal completedValue) in Hcall;
          apply Some_inj in Hcall; exact Hcall).
    subst r.
    assert (Hh : h' = Heap.make (Heap.rectangles h ++ [b]) (Heap.pairs h)).
    { apply (f_equal (fun c => match c with Normal _ k => k | Throw _ => h' end))
        in Hcall. symmetry. exact Hcall. }
    subst h'. unfold rectangleAt. cbn. repeat split.
    + intros l Hl.
      destruct (Nat.lt_ge_cases l (length (Heap.rectangles h))) as [Hlt | Hge].
      * apply nth_error_kept. exact Hlt.
      * assert (Hnone : nth_error (Heap.rectangles h) l = None)
          by (apply nth_error_None; exact Hge).
        rewrite Hnone. apply nth_error_None. rewrite length_app. simpl. lia.
    + apply nth_error_None. lia.
    + rewrite length_app. simpl. lia.
Qed.

(** positionToTileXY never touches a rectangle.  When it returns a pair,
    every other pair of the store is as it was; when it returns [undefined]
    the store is unchanged. *)
Theorem positionToTileXY_frame
  (this : t num Ellipsoid) (position : Cartographic.t num) (level : num)
  (result : option ref) (h h' : Heap.t num) (r : option ref) :
  positionToTileXY this position level result h = Normal r h' ->
  Heap.rectangles h' = Heap.rectangles h /\
  match r with
  | None => h' = h
  | Some l => forall l', l' <> l -> pairAt h' l' = pairAt h l'
  end.
Proof.
  unfold positionToTileXY, getNumberOfXTilesAtLevel, getNumberOfYTilesAtLevel,
    currentResolution, bind, ret, throw, setCartesian2, newCartesian2.
  destruct (Rectangle_contains (_rectangle this) position); cbn.
  - assert (Hfresh : forall (c : Cartesian2.t num) l',
              l' <> length (Heap.pairs h) ->
              nth_error (Heap.pairs h ++ [c]) l' = nth_error (Heap.pairs h) l').
    { intros c l' Hl.
      destruct (Nat.lt_ge_cases l' (length (Heap.pairs h))) as [Hlt | Hge].
      - apply nth_error_kept. exact Hlt.
      - assert (Hnone : nth_error (Heap.pairs h) l' = None)
          by (apply nth_error_None; exact Hge).
        rewrite Hnone. apply nth_error_None. rewrite length_app. simpl. lia. }
    destruct (_tileInfo this) as [tileInfo|].
    + destruct (currentMatrix tileInfo level) as [|item rest]; [discriminate|].
      cbn. intros Hcall.
      assert (Hr : Some (length (Heap.pairs h)) = r)
        by (apply (f_equal completedValue) in Hcall;
            apply Some_inj in Hcall; exact Hcall).
      apply (f_equal (fun c => match c with Normal _ k => k | Throw _ => h' end))
        in Hcall.
      subst r h'. unfold pairAt. cbn. split; [reflexivity|]. apply Hfresh.
    + cbn. destruct result as [l|]; cbn; intros Hcall.
      * assert (Hr : Some l = r)
          by (apply (f_equal completedValue) in Hcall;
              apply Some_inj in Hcall; exact Hcall).
        apply (f_equal (fun c => match c with Normal _ k => k | Throw _ => h' end))
          in Hcall.
        subst r h'. unfold pairAt. cbn. split; [reflexivity|].
        intros l' Hl. apply assign_other. congruence.
      * assert (Hr : Some (length (Heap.pairs h)) = r)
          by (apply (f_equal completedValue) in Hcall;
              apply Some_inj in Hcall; exact Hcall).
        apply (f_equal (fun c => match c with Normal _ k => k | Throw _ => h' end))
          in Hcall.
        subst r h'. unfold pairAt. cbn. split; [reflexivity|]. apply Hfresh.
  - intros Hcall.
    assert (Hr : None = r)
      by (apply (f_equal completedValue) in Hcall;
          apply Some_inj in Hcall; exact Hcall).
    apply (f_equal (fun c => match c with Normal _ k => k | Throw _ => h' end))
      in Hcall.
    subst r h'. split; reflexivity.
Qed.

End Calls.

Section Native.
Context {num : Type} {N : JSNumber num} {C : Collaborators num}.

Lemma modifyRectangle_live
  (l : ref) (f : Rectangle.t num -> Rectangle.t num) (h : Heap.t num)
  (r : Rectangle.t num) :
  nth_error (Heap.rectangles h) l = Some r ->
  modifyRectangle l f h
  = Normal tt (Heap.make (assign l (f r) (Heap.rectangles h)) (Heap.pairs h)).
Proof.
  intros Hl. unfold modifyRectangle. rewrite Hl. reflexivity.
Qed.

(** Four assignments in a row to the bounds of a live rectangle. *)
Lemma four_assignments
  (l : ref) (f1 f2 f3 f4 : Rectangle.t num -> Rectangle.t num) (h : Heap.t num)
  (r : Rectangle.t num) :
  nth_error (Heap.rectangles h) l = Some r ->
  (modifyRectangle l f1 ;;; modifyRectangle l f2 ;;; modifyRectangle l f3 ;;;
   modifyRectangle l f4 ;;; ret l) h
  = Normal l (Heap.make (assign l (f4 (f3 (f2 (f1 r)))) (Heap.rectangles h))
                        (Heap.pairs h)).
Proof.
  intros Hl. pose proof (nth_error_live _ _ _ Hl) as Hlive.
  unfold bind, ret.
  rewrite (modifyRectangle_live l f1 h r Hl).
  rewrite (modifyRectangle_live l f2 _ (f1 r))
    by (cbn; apply assign_same; exact Hlive).
  cbn [Heap.rectangles Heap.pairs]. rewrite assign_twice.
  rewrite (modifyRectangle_live l f3 _ (f2 (f1 r)))
    by (cbn; apply assign_same; exact Hlive).
  cbn [Heap.rectangles Heap.pairs]. rewrite assign_twice.
  rewrite (modifyRectangle_live l f4 _ (f3 (f2 (f1 r))))
    by (cbn; apply assign_same; exact Hlive).
  cbn [Heap.rectangles Heap.pairs]. rewrite assign_twice. reflexivity.
Qed.

(** rectangleToNativeRectangle reads the four bounds before it writes any:
    the rectangle it returns holds the degrees of the bounds that [rectangle]
    had, also when [result] is [rectangle] itself.  With a [result] that
    reference is returned, without one a new rectangle; the pairs and every
    other rectangle are left as they were. *)
Theorem rectangleToNativeRectangle_converts
  (this : t num Ellipsoid) (rectangle : ref) (result : option ref)
  (h : Heap.t num) (r : Rectangle.t num) :
  rectangleAt h rectangle = Some r ->
  match result with Some l => (l < length (Heap.rectangles h))%nat | None => True end ->
  exists (l : ref) (h' : Heap.t num),
    rectangleToNativeRectangle this rectangle result h = Normal l h' /\
    rectangleAt h' l = Some (inDegrees r) /\
    match result with Some l' => l = l' | None => rectangleAt h l = None end /\
    (forall l', l' <> l -> rectangleAt h' l' = rectangleAt h l') /\
    Heap.pairs h' = Heap.pairs h.
Proof.
  intros Hr Hlive. unfold rectangleAt in Hr.
  unfold rectangleToNativeRectangle, bind at 1, readRectangle. rewrite Hr.
  destruct result as [l|].
  - destruct (nth_error (Heap.rectangles h) l) as [o|] eqn:Ho;
      [|apply nth_error_None in Ho; lia].
    rewrite (four_assignments l _ _ _ _ h o Ho). cbn.
    eexists; eexists. split; [reflexivity|]. unfold rectangleAt. cbn.
    repeat split.
    + apply assign_same. exact Hlive.
    + intros l' Hl'. apply assign_other. congruence.
  - unfold newRectangle. eexists; eexists. split; [reflexivity|].
    unfold rectangleAt. cbn. repeat split.
    + apply nth_error_fresh.
    + apply nth_error_None. lia.
    + intros l' Hl'.
      destruct (Nat.lt_ge_cases l' (length (Heap.rectangles h))) as [Hlt | Hge].
      * apply nth_error_kept. exact Hlt.
      * assert (Hnone : nth_error (Heap.rectangles h) l' = None)
          by (apply nth_error_None; exact Hge).
        rewrite Hnone. apply nth_error_None. rewrite length_app. simpl. lia.
Qed.

(** tileXYToNativeRectangle is tileXYToRectangle followed by
    rectangleToNativeRectangle of the returned rectangle into itself: the two
    complete with the same reference and the same store, or throw alike. *)
Theorem tileXYToNativeRectangle_composes
  (this : t num Ellipsoid) (x y level : num) (result : option ref) (h : Heap.t num) :
  tileXYToNativeRectangle this x y level result h
  = (l <- tileXYToRectangle this x y level result ;;
     rectangleToNativeRectangle this l (Some l)) h.
Proof.
  unfold tileXYToNativeRectangle, rectangleToNativeRectangle.
  unfold bind at 1. unfold bind at 5.
  destruct (tileXYToRectangle this x y level result h) as [l h1|e]; [|reflexivity].
  unfold bind at 5. unfold readRectangle.
  destruct (nth_error (Heap.rectangles h1) l) as [o|] eqn:Ho.
  - rewrite (four_assignments l _ _ _ _ h1 o Ho).
    rewrite (four_assignments l _ _ _ _ h1 o Ho). reflexivity.
  - unfold bind, modifyRectangle. rewrite Ho. reflexivity.
Qed.

Lemma tileXYToNativeRectangle_call
  (this : t num Ellipsoid) (x y level : num) (result : option ref) (h : Heap.t num) :
  match result with Some l => (l < length (Heap.rectangles h))%nat | None => True end ->
  tileXYToNativeRectangle this x y level result h
  = match tileBounds this x y level with
    | None => Throw TypeError
    | Some b =>
        match result with
        | None =>
            Normal (length (Heap.rectangles h))
                   (Heap.make (Heap.rectangles h ++ [inDegrees b]) (Heap.pairs h))
        | Some l =>
            Normal l (Heap.make (assign l (inDegrees b) (Heap.rectangles h))
                                (Heap.pairs h))
        end
    end.
Proof.
  intros Hlive. unfold tileXYToNativeRectangle. unfold bind at 1.
  rewrite tileXYToRectangle_call.
  destruct (tileBounds this x y level) as [b|]; [|reflexivity].
  destruct result as [l|].
  - rewrite (four_assignments l _ _ _ _ _ b)
      by (cbn; apply assign_same; exact Hlive).
    cbn. rewrite assign_twice. reflexivity.
  - rewrite (four_assignments _ _ _ _ _ _ b) by (cbn; apply nth_error_fresh).
    cbn. rewrite assign_fresh. reflexivity.
Qed.

(** The native rectangle of a tile is its rectangle with each bound in
    degrees, at the reference that tileXYToRectangle would return; the two
    throw alike. *)
Theorem tileXYToNativeRectangle_in_degrees
  (this : t num Ellipsoid) (x y level : num) (result : option ref) (h : Heap.t num) :
  match result with Some l => (l < length (Heap.rectangles h))%nat | None => True end ->
  returnedRectangle (tileXYToNativeRectangle this x y level result h)
  = option_map inDegrees (returnedRectangle (tileXYToRectangle this x y level result h))
  /\
  completedValue (tileXYToNativeRectangle this x y level result h)
  = completedValue (tileXYToRectangle this x y level result h).
Proof.
  intros Hlive. rewrite (tileXYToNativeRectangle_call _ _ _ _ _ _ Hlive).
  rewrite tileXYToRectangle_call.
  destruct (tileBounds this x y level) as [b|]; [|split; reflexivity].
  destruct result as [l|]; cbn; unfold rectangleAt; cbn.
  - rewrite !assign_same by exact Hlive. split; reflexivity.
  - rewrite !nth_error_fresh. split; reflexivity.
Qed.

End Native.

Section MatrixTable.
Context {num : Type} {N : JSNumber num} {C : Collaborators num}.

(** In matrix mode nothing depends on the level-zero tile counts, on the
    ellipsoid or on the projection, and only positionToTileXY looks at the
    root rectangle: two schemes with the same tile matrix give the same tile
    counts and tile rectangles, and the same tiles for positions when their
    root rectangles are the same. *)
Theorem matrix_mode_depends_on_matrix_only
  (this other : t num Ellipsoid) (tileInfo : TileInfo.t num) :
  _tileInfo this = Some tileInfo ->
  _tileInfo other = Some tileInfo ->
  (forall level h,
     getNumberOfXTilesAtLevel this level h = getNumberOfXTilesAtLevel other level h /\
     getNumberOfYTilesAtLevel this level h = getNumberOfYTilesAtLevel other level h) /\
  (forall x y level result h,
     tileXYToRectangle this x y level result h
     = tileXYToRectangle other x y level result h /\
     tileXYToNativeRectangle this x y level result h
     = tileXYToNativeRectangle other x y level result h) /\
  (_rectangle this = _rectangle other ->
   forall position level result h,
     positionToTileXY this position level result h
     = positionToTileXY other position level result h).
Proof.
  intros Hthis Hother. split; [|split].
  - intros level h. unfold getNumberOfXTilesAtLevel, getNumberOfYTilesAtLevel.
    rewrite Hthis, Hother. split; reflexivity.
  - intros x y level result h.
    assert (Hcall : forall r k, tileXYToRectangle this x y level r k
                                = tileXYToRectangle other x y level r k).
    { intros r k. unfold tileXYToRectangle. rewrite Hthis, Hother. reflexivity. }
    split; [apply Hcall|].
    unfold tileXYToNativeRectangle, bind. rewrite Hcall. reflexivity.
  - intros Hrect position level result h. unfold positionToTileXY.
    rewrite Hthis, Hother, Hrect. reflexivity.
Qed.

(** The level table is searched from its head: when several entries carry the
    requested level, the first one decides and the others are ignored.  At
    that level the scheme behaves as one whose table holds that entry alone. *)
Theorem first_entry_of_level_wins
  (this other : t num Ellipsoid) (tileInfo single : TileInfo.t num) (level : num)
  (before after : list (Lod.t num)) (item : Lod.t num) :
  _tileInfo this = Some tileInfo ->
  _tileInfo other = Some single ->
  TileInfo.lods tileInfo = before ++ item :: after ->
  TileInfo.lods single = [item] ->
  TileInfo.rows single = TileInfo.rows tileInfo ->
  TileInfo.cols single = TileInfo.cols tileInfo ->
  TileInfo.origin single = TileInfo.origin tileInfo ->
  _rectangle other = _rectangle this ->
  forallb (fun entry => negb (neqb (Lod.level entry) level)) before = true ->
  neqb (Lod.level item) level = true ->
  (forall h,
     getNumberOfXTilesAtLevel this level h = getNumberOfXTilesAtLevel other level h /\
     getNumberOfYTilesAtLevel this level h = getNumberOfYTilesAtLevel other level h) /\
  (forall x y result h,
     tileXYToRectangle this x y level result h
     = tileXYToRectangle other x y level result h) /\
  (forall position result h,
     positionToTileXY this position level result h
     = positionToTileXY other position level result h).
Proof.
  intros Hthis Hother Hlods Hsingle Hrows Hcols Horigin Hrect Hbefore Hitem.
  assert (Hfilter : currentMatrix tileInfo level
                    = item :: filter (fun entry => neqb (Lod.level entry) level) after).
  { unfold currentMatrix. rewrite Hlods, filter_app.
    assert (Hnone : filter (fun entry => neqb (Lod.level entry) level) before = []).
    { clear Hlods. induction before as [|o before IH]; [reflexivity|].
      cbn in Hbefore. apply andb_true_iff in Hbefore. destruct Hbefore as [Ho Hrest].
      cbn. apply negb_true_iff in Ho. rewrite Ho. apply IH. exact Hrest. }
    rewrite Hnone. cbn. rewrite Hitem. reflexivity. }
  assert (Hone : currentMatrix single level = [item]).
  { unfold currentMatrix. rewrite Hsingle. cbn. rewrite Hitem. reflexivity. }
  split; [|split].
  - intros h. unfold getNumberOfXTilesAtLevel, getNumberOfYTilesAtLevel,
      currentResolution, bind.
    rewrite Hthis, Hother, Hfilter, Hone, Hrows, Hcols. split; reflexivity.
  - intros x y result h. unfold tileXYToRectangle, currentResolution, bind.
    rewrite Hthis, Hother, Hfilter, Hone, Hrows, Hcols, Horigin. reflexivity.
  - intros position result h. unfold positionToTileXY, currentResolution, bind.
    rewrite Hthis, Hother, Hfilter, Hone, Hrows, Hcols, Horigin, Hrect. reflexivity.
Qed.

End MatrixTable.

Section ShiftCount.
Local Open Scope Z_scope.




End ShiftCount.

(** On IEEE doubles, for the scheme of [new GeographicTilingScheme()] and
    every level from 0 to 95: the tile counts of the level, and those of 32
    levels further, are 2 and 1 shifted by [level mod 32] as 32-bit
    integers. *)
Theorem default_tile_counts_wrap_at_32_on_doubles (level : Z) :
  (0 <= level <= 95)%Z ->
  valueIs (completedValue (getNumberOfXTilesAtLevel defaultScheme (ofZ level) emptyHeap))
          (wrap32 (Z.shiftl 2 (level mod 32))) = true /\
  valueIs (completedValue (getNumberOfYTilesAtLevel defaultScheme (ofZ level) emptyHeap))
          (wrap32 (Z.shiftl 1 (level mod 32))) = true /\
  valueIs (completedValue
             (getNumberOfXTilesAtLevel defaultScheme (ofZ (level + 32)) emptyHeap))
          (wrap32 (Z.shiftl 2 (level mod 32))) = true /\
  valueIs (completedValue
             (getNumberOfYTilesAtLevel defaultScheme (ofZ (level + 32)) emptyHeap))
          (wrap32 (Z.shiftl 1 (level mod 32))) = true.
Proof.
  intros Hl.
  assert (Hall : forallb (fun l =>
              valueIs (completedValue
                         (getNumberOfXTilesAtLevel defaultScheme (ofZ l) emptyHeap))
                      (wrap32 (Z.shiftl 2 (l mod 32))) &&
              valueIs (completedValue
                         (getNumberOfYTilesAtLevel defaultScheme (ofZ l) emptyHeap))
                      (wrap32 (Z.shiftl 1 (l mod 32))) &&
              valueIs (completedValue
                         (getNumberOfXTilesAtLevel defaultScheme (ofZ (l + 32)) emptyHeap))
                      (wrap32 (Z.shiftl 2 (l mod 32))) &&
              valueIs (completedValue
                         (getNumberOfYTilesAtLevel defaultScheme (ofZ (l + 32)) emptyHeap))
                      (wrap32 (Z.shiftl 1 (l mod 32)))) (levelsUpTo 95) = true)
    by (vm_compute; reflexivity).
  rewrite forallb_forall in Hall.
  pose proof (Hall level (in_levelsUpTo 95 level Hl)) as H.
  apply andb_prop in H. destruct H as [H H4].
  apply andb_prop in H. destruct H as [H H3].
  apply andb_prop in H. destruct H as [H1 H2].
  repeat split; assumption.
Qed.

Lemma default_tile_counts_wrap_at_32_on_doubles_witness :
  valueIs (completedValue (getNumberOfXTilesAtLevel defaultScheme (ofZ 31) emptyHeap))
          (wrap32 (Z.shiftl 2 (31 mod 32))) = true /\
  valueIs (completedValue (getNumberOfYTilesAtLevel defaultScheme (ofZ 31) emptyHeap))
          (wrap32 (Z.shiftl 1 (31 mod 32))) = true /\
  valueIs (completedValue
             (getNumberOfXTilesAtLevel defaultScheme (ofZ (31 + 32)) emptyHeap))
          (wrap32 (Z.shiftl 2 (31 mod 32))) = true /\
  valueIs (completedValue
             (getNumberOfYTilesAtLevel defaultScheme (ofZ (31 + 32)) emptyHeap))
          (wrap32 (Z.shiftl 1 (31 mod 32))) = true.
Proof.
  apply (default_tile_counts_wrap_at_32_on_doubles 31); lia.
Defined.

Section NaNLevel.

Lemma nothing_equals_nan (f : float) : PrimFloat.eqb f nan = false.
Proof.
  rewrite FloatAxioms.eqb_spec. unfold SFeqb, SFcompare.
  change (Prim2SF nan) with S754_nan.
  destruct (Prim2SF f) as [s| s | | s m e]; try reflexivity; destruct s; reflexivity.
Qed.

(** On doubles, NaN equals nothing under [===]: in matrix mode a NaN level is
    never found, whatever the level table holds, and the four operations
    throw (positionToTileXY for a position inside the rectangle). *)
Theorem nan_level_is_never_listed
  (this : Scheme64) (tileInfo : TileInfo.t float) (h : Heap.t float) :
  _tileInfo this = Some tileInfo ->
  getNumberOfXTilesAtLevel this nan h = Throw TypeError /\
  getNumberOfYTilesAtLevel this nan h = Throw TypeError /\
  (forall x y result, tileXYToRectangle this x y nan result h = Throw TypeError) /\
  (forall x y result, tileXYToNativeRectangle this x y nan result h = Throw TypeError) /\
  (forall position result,
     Rectangle_contains (_rectangle this) position = true ->
     positionToTileXY this position nan result h = Throw TypeError).
Proof.
  intros Hmode.
  assert (Hlisted : existsb (fun item => neqb (Lod.level item) nan)
                            (TileInfo.lods tileInfo) = false).
  { induction (TileInfo.lods tileInfo) as [|item items IH]; [reflexivity|].
    cbn [existsb]. rewrite IH.
    change (neqb (Lod.level item) nan) with (PrimFloat.eqb (Lod.level item) nan).
    rewrite nothing_equals_nan. reflexivity. }
  pose proof (currentMatrix_missing tileInfo nan Hlisted) as Hfilter.
  unfold getNumberOfXTilesAtLevel, getNumberOfYTilesAtLevel, tileXYToNativeRectangle,
    tileXYToRectangle, positionToTileXY, currentResolution, bind, throw.
  rewrite Hmode, Hfilter. repeat split.
  intros position result Hin. rewrite Hin. reflexivity.
Qed.

End NaNLevel.

Lemma adjacent_tiles_share_edges_witness :
  exists rx ry,
    returnedRectangle
      (tileXYToRectangle defaultScheme (nadd 2%float (ofZ 1)) 1%float 3%float None emptyHeap)
    = Some rx /\
    returnedRectangle
      (tileXYToRectangle defaultScheme 2%float (nadd 1%float (ofZ 1)) 3%float None emptyHeap)
    = Some ry /\
    Rectangle.west rx = Rectangle.east exampleTile /\
    Rectangle.north rx = Rectangle.north exampleTile /\
    Rectangle.south rx = Rectangle.south exampleTile /\
    Rectangle.north ry = Rectangle.south exampleTile /\
    Rectangle.west ry = Rectangle.west exampleTile /\
    Rectangle.east ry = Rectangle.east exampleTile.
Proof.
  exact (adjacent_tiles_share_edges defaultScheme 2%float 1%float 3%float emptyHeap
           exampleTile eq_refl).
Defined.

Lemma tileXYToRectangle_frame_witness :
  Heap.pairs (Heap.make [exampleTile] [Cartesian2.new 7%float 7%float])
  = Heap.pairs heapWithBoth /\
  (forall l, l <> 0%nat ->
     rectangleAt (Heap.make [exampleTile] [Cartesian2.new 7%float 7%float]) l
     = rectangleAt heapWithBoth l) /\
  0%nat = 0%nat /\
  length (Heap.rectangles (Heap.make [exampleTile] [Cartesian2.new 7%float 7%float]))
  = length (Heap.rectangles heapWithBoth).
Proof.
  exact (tileXYToRectangle_frame defaultScheme 2%float 1%float 3%float (Some 0%nat)
           heapWithBoth (Heap.make [exampleTile] [Cartesian2.new 7%float 7%float])
           0%nat eq_refl).
Defined.

Lemma positionToTileXY_frame_witness :
  Heap.rectangles
    (Heap.make [Rectangle.MAX_VALUE]
               [Cartesian2.new 7%float 7%float; Cartesian2.new 1%float 0%float])
  = Heap.rectangles heapWithBoth /\
  forall l', l' <> 1%nat ->
    pairAt (Heap.make [Rectangle.MAX_VALUE]
                      [Cartesian2.new 7%float 7%float; Cartesian2.new 1%float 0%float]) l'
    = pairAt heapWithBoth l'.
Proof.
  exact (positionToTileXY_frame exampleMatrixScheme nullIsland 0%float (Some 0%nat)
           heapWithBoth
           (Heap.make [Rectangle.MAX_VALUE]
                      [Cartesian2.new 7%float 7%float; Cartesian2.new 1%float 0%float])
           (Some 1%nat) eq_refl).
Defined.

(** The maximum rectangle converted into itself. *)
Lemma rectangleToNativeRectangle_converts_witness :
  exists (l : ref) (h' : Heap.t float),
    rectangleToNativeRectangle defaultScheme 0%nat (Some 0%nat) heapWithBoth
    = Normal l h' /\
    rectangleAt h' l = Some (inDegrees Rectangle.MAX_VALUE) /\
    l = 0%nat /\
    (forall l', l' <> l -> rectangleAt h' l' = rectangleAt heapWithBoth l') /\
    Heap.pairs h' = Heap.pairs heapWithBoth.
Proof.
  exact (rectangleToNativeRectangle_converts defaultScheme 0%nat (Some 0%nat)
           heapWithBoth Rectangle.MAX_VALUE eq_refl (le_n 1)).
Defined.

Lemma matrix_mode_depends_on_matrix_only_witness :
  getNumberOfXTilesAtLevel exampleMatrixScheme 0%float emptyHeap
  = getNumberOfXTilesAtLevel exampleMatrixSchemeOtherGrid 0%float emptyHeap /\
  tileXYToRectangle exampleMatrixScheme 1%float 0%float 0%float None emptyHeap
  = tileXYToRectangle exampleMatrixSchemeOtherGrid 1%float 0%float 0%float None emptyHeap.
Proof.
  destruct (matrix_mode_depends_on_matrix_only exampleMatrixScheme
              exampleMatrixSchemeOtherGrid exampleTileInfo eq_refl eq_refl)
    as [Hcounts [Hrect _]].
  split; [apply Hcounts | apply Hrect].
Defined.

Lemma first_entry_of_level_wins_witness :
  getNumberOfXTilesAtLevel repeatedLevelScheme 0%float emptyHeap
  = getNumberOfXTilesAtLevel exampleMatrixScheme 0%float emptyHeap /\
  tileXYToRectangle repeatedLevelScheme 1%float 0%float 0%float None emptyHeap
  = tileXYToRectangle exampleMatrixScheme 1%float 0%float 0%float None emptyHeap.
Proof.
  assert (Hbefore : forallb (fun entry => negb (neqb (Lod.level entry) 0%float))
                            [Lod.new 1%float 0.3515625%float] = true)
    by (vm_compute; reflexivity).
  assert (Hitem : neqb (Lod.level (Lod.new 0%float 0.703125%float)) 0%float = true)
    by (vm_compute; reflexivity).
  destruct (first_entry_of_level_wins repeatedLevelScheme exampleMatrixScheme
              repeatedLevelTileInfo exampleTileInfo 0%float
              [Lod.new 1%float 0.3515625%float]
              [Lod.new 0%float 1.40625%float; Lod.new 0%float 0.3515625%float]
              (Lod.new 0%float 0.703125%float)
              eq_refl eq_refl eq_refl eq_refl eq_refl eq_refl eq_refl eq_refl
              Hbefore Hitem)
    as [Hcounts [Hrect _]].
  split; [apply Hcounts | apply Hrect].
Defined.


Lemma nan_level_is_never_listed_witness :
  getNumberOfXTilesAtLevel exampleMatrixScheme nan emptyHeap = Throw TypeError /\
  positionToTileXY exampleMatrixScheme nullIsland nan None emptyHeap = Throw TypeError.
Proof.
  destruct (nan_level_is_never_listed exampleMatrixScheme exampleTileInfo emptyHeap
              eq_refl) as [Hx [_ [_ [_ Hposition]]]].
  split; [exact Hx | apply Hposition; reflexivity].
Defined.
